(** * Kafka message bus of Frontera ([frontera/contrib/messagebus/kafkabus.py])

    A shallow embedding of the Kafka message bus: the stream consumer, the
    unkeyed and the keyed producer, the four logical stream facades and the
    message bus that hands them out, followed by the properties of the
    design document that can be stated over them.

    Python objects are records, mutation is explicit state passing, and an
    exception is the [Raise] case of [Py.Result].  The kafka-python client
    ([KafkaConsumer], the constructor of [KafkaProducer]) and the lag fetcher
    ([OffsetsFetcherAsync]) are not part of the file under study: they are
    interfaces (type classes), and every theorem holds for every
    implementation of them.  A constructed producer is the sequence of
    records handed to it. *)

From Stdlib Require Import ZArith QArith Lia Ascii String.
From stdpp Require Import base option list strings gmap pretty.

Local Open Scope Z_scope.
Local Open Scope string_scope.

(** ** Python values, exceptions and results *)

Module Py.

(** The partitioner objects of [frontera.contrib.backends.partitioners];
    only their constructor calls occur in this file. *)
Inductive Partitioner : Type :=
| FingerprintPartitioner (partitions : Z)
| Crc32NamePartitioner (partitions : Z).

(** The values that travel through keyword arguments and comparisons. *)
Inductive Value : Type :=
| None_
| Bool (b : bool)
| Int (z : Z)
| Str (s : string)
| Bytes (b : string)
| PartitionerObj (p : Partitioner).

#[global] Instance Partitioner_eq_dec : EqDecision Partitioner.
Proof. solve_decision. Defined.

#[global] Instance Value_eq_dec : EqDecision Value.
Proof. solve_decision. Defined.

(** [a == b] of Python 3: a [bool] is an [int], text and bytes never
    compare equal, everything else is compared structurally. *)
Definition eq (a b : Value) : bool :=
  match a, b with
  | Bool x, Int z | Int z, Bool x => bool_decide ((if x then 1 else 0) = z)
  | _, _ => bool_decide (a = b)
  end.

(** [**kwargs]: a dictionary from keyword to value. *)
Abbreviation Kwargs := (gmap string Value).

Inductive Exception : Type :=
| KeyError (args : list Value)
| AssertionError (msg : option string)
| TypeError (msg : string)
| KafkaError (name : string).

#[global] Instance Exception_eq_dec : EqDecision Exception.
Proof. solve_decision. Defined.

(** The outcome of a call: a returned value or a raised exception. *)
Inductive Result (A : Type) : Type :=
| Ok (a : A)
| Raise (e : Exception).

Arguments Ok {A} a.
Arguments Raise {A} e.

#[global] Instance Result_ret : MRet Result := fun A a => Ok a.

#[global] Instance Result_bind : MBind Result := fun A B f m =>
  match m with
  | Ok a => f a
  | Raise e => Raise e
  end.

(** The text of the [TypeError] for a keyword given twice.  [callee] is how
    the interpreter describes what is called: its qualified name followed by
    [()] on CPython 3.9 and later, [type object] for a class before. *)
Definition multiple_values (callee key : string) : string :=
  callee +:+ " got multiple values for keyword argument '" +:+ key +:+ "'".

(** [f(k1=v1, ..., **kwargs)]: a keyword given twice is a [TypeError] raised
    by the call itself, before [f] runs; it names the callee and the keyword
    (one of them when several are given twice). *)
Definition call_kwargs (callee : string) (explicit kwargs : Kwargs) : Result Kwargs :=
  match elements (dom explicit ∩ dom kwargs : gset string) with
  | [] => Ok (explicit ∪ kwargs)
  | key :: _ => Raise (TypeError (multiple_values callee key))
  end.

(** [kwargs.update(other)]: the keys of [other] win. *)
Definition update (kwargs other : Kwargs) : Kwargs := other ∪ kwargs.

(** [kwargs.pop(key, default)]: the value and the dictionary without [key]. *)
Definition pop (key : string) (dflt : Value) (kwargs : Kwargs) : Value * Kwargs :=
  (default dflt (kwargs !! key), delete key kwargs).

(** [os.path.join(a, name)] for a relative [name]. *)
Definition os_path_join (a name : string) : string :=
  match a with
  | "" => name
  | _ => if bool_decide (last (String.list_ascii_of_string a) = Some "/"%char)
         then a +:+ name
         else a +:+ "/" +:+ name
  end.

End Py.

Import Py.

(** ** The kafka-python client, as this file uses it *)

Module Kafka.

(** [TopicPartition(topic, partition)] *)
Record TopicPartition : Type := mkTopicPartition {
  topic : string;
  partition : Z;
}.

#[global] Instance TopicPartition_eq_dec : EqDecision TopicPartition.
Proof. solve_decision. Defined.

(** What iterating a [KafkaConsumer] yields; the payload is opaque bytes. *)
Record ConsumerRecord : Type := mkConsumerRecord {
  cr_topic : string;
  cr_partition : Z;
  cr_offset : Z;
  value : string;
}.

(** [KafkaConsumer], through the calls this file makes.  [K] is the state of
    the client object; a call that changes the object returns its new state.

    - [next] yields a record or raises [StopIteration] ([None]) once
      [consumer_timeout_ms] elapsed without one;
    - [partitions_for_topic] is the set of partition ids of the topic in its
      iteration order, or Python's [None] when the topic is not known;
    - [commit] may fail with the client's exception; the object stays;
    - [consumer_callee] is how the interpreter describes the class in the
      [TypeError] of a call. *)
Class ConsumerApi (K : Type) : Type := {
  consumer_callee : string;
  KafkaConsumer : Kwargs -> Result K;
  topics : K -> K;
  assign : list TopicPartition -> K -> K;
  subscribe : list string -> K -> K;
  partitions_for_topic : string -> K -> option (list Z);
  next : K -> option ConsumerRecord * K;
  position : TopicPartition -> K -> Result Z;
  commit : K -> option Exception * K;
  close : K -> K;
}.

(** What kafka-python documents of [commit()], [committed(partition)] and
    [close()], for the clients that keep to it: a successful [commit()]
    without arguments commits, for every partition the client has a position
    on, that position; [committed(tp)] is the last committed offset; a
    failed commit commits nothing; [close()] releases the connection and
    commits nothing by itself; only [close()] releases. *)
Class CommitModel (K : Type) `{!ConsumerApi K} : Type := {
  committed : TopicPartition -> K -> option Z;
  released : K -> bool;
  commit_Ok : forall k k', commit k = (None, k') ->
    released k' = released k
    /\ forall tp z, position tp k = Ok z -> committed tp k' = Some z;
  commit_Raise : forall e k k', commit k = (Some e, k') ->
    released k' = released k
    /\ forall tp, committed tp k' = committed tp k;
  close_released : forall k,
    released (close k) = true
    /\ forall tp, committed tp (close k) = committed tp k;
}.

(** A record handed to [KafkaProducer.send(topic, key=..., value=...)];
    [pr_key] is [None] when the call names no key. *)
Record ProducerRecord : Type := mkProducerRecord {
  pr_topic : string;
  pr_key : option Value;
  pr_value : string;
}.

#[global] Instance ProducerRecord_eq_dec : EqDecision ProducerRecord.
Proof. solve_decision. Defined.

(** [KafkaProducer]: its configuration, the records accepted by [send]
    (oldest first), how many of them [flush] has pushed out, and whether the
    connection was released. *)
Record Producer : Type := mkProducer {
  config : Kwargs;
  records : list ProducerRecord;
  flushed : nat;
  closed : bool;
}.

(** The object a successful [KafkaProducer] called with [**configs] returns. *)
Definition new_producer (configs : Kwargs) : Producer :=
  {| config := configs; records := []; flushed := 0%nat; closed := false |}.

(** What the constructor of [KafkaProducer] depends on outside this file:
    whether it raises on a configuration (no broker available, a keyword it
    does not recognize), and how the interpreter describes the class in the
    [TypeError] of a call. *)
Class ProducerApi : Type := {
  producer_callee : string;
  producer_raises : Kwargs -> option Exception;
}.

(** [KafkaProducer] called with [**configs] *)
Definition KafkaProducer `{!ProducerApi} (configs : Kwargs) : Result Producer :=
  match producer_raises configs with
  | Some e => Raise e
  | None => Ok (new_producer configs)
  end.

(** [producer.send(topic, key=key, value=value)] buffers the record. *)
Definition send (topic : string) (key : option Value) (value : string)
    (p : Producer) : Producer :=
  {| config := config p;
     records := records p ++ [mkProducerRecord topic key value];
     flushed := flushed p;
     closed := closed p |}.

Definition flush (p : Producer) : Producer :=
  {| config := config p; records := records p;
     flushed := length (records p); closed := closed p |}.

Definition producer_close (p : Producer) : Producer :=
  {| config := config p; records := records p;
     flushed := length (records p); closed := true |}.

(** [OffsetsFetcherAsync] of [frontera.contrib.messagebus.kafka]: [get]
    returns the current lag snapshot, a dictionary partition -> lag. *)
Class OffsetsFetcherApi (F : Type) : Type := {
  OffsetsFetcherAsync : Kwargs -> F;
  get : F -> gmap Z Z;
}.

End Kafka.

(** ** Module constants and helpers *)

Definition DEFAULT_BATCH_SIZE : Z := 1024 * 1024.
Definition DEFAULT_BUFFER_MEMORY : Z := 130 * 1024 * 1024.
Definition DEFAULT_MAX_REQUEST_SIZE : Z := 4 * 1024 * 1024.

(** Prepare SSL kwargs for Kafka producer/consumer. *)
Definition _prepare_kafka_ssl_kwargs (cert_path : string) : Kwargs :=
  {[ "security_protocol" := Str "SSL";
     "ssl_cafile" := Str (os_path_join cert_path "ca-cert.pem");
     "ssl_certfile" := Str (os_path_join cert_path "client-cert.pem");
     "ssl_keyfile" := Str (os_path_join cert_path "client-key.pem") ]}.

(** Prepare SASL kwargs for Kafka producer/consumer. *)
Definition _prepare_kafka_sasl_kwargs (sasl_username sasl_password : string) : Kwargs :=
  {[ "security_protocol" := Str "SASL_SSL";
     "sasl_mechanism" := Str "SCRAM-SHA-512";
     "sasl_plain_username" := Str sasl_username;
     "sasl_plain_password" := Str sasl_password ]}.

(** ** [class Consumer]: used in DB and SW worker, SW consumes per partition *)

Module Consumer.
Section Consumer.
Context {K : Type} `{!Kafka.ConsumerApi K}.

Record t : Type := mk {
  _location : string;
  _group : string;
  _topic : string;
  _consumer : K;
  _partitions : list Kafka.TopicPartition;
}.

(** The configuration [__init__] hands to [KafkaConsumer(...)]: the
    keywords written in the call, and [**kwargs]. *)
Definition consumer_configs (location : string) (enable_ssl : bool) (cert_path : string)
    (topic group : string) (partition_id : option Z)
    (enable_sasl : bool) (sasl_username sasl_password : string) : Result Kwargs :=
  let kwargs :=
    if enable_ssl then _prepare_kafka_ssl_kwargs cert_path
    else if enable_sasl then _prepare_kafka_sasl_kwargs sasl_username sasl_password
    else ∅ in
  call_kwargs Kafka.consumer_callee
    {[ "bootstrap_servers" := Str location;
       "group_id" := Str group;
       "max_partition_fetch_bytes" := Int 10485760;
       "consumer_timeout_ms" := Int 100;
       "client_id" := Str (topic +:+ "-" +:+
                           match partition_id with
                           | Some pid => pretty pid
                           | None => "all"
                           end);
       "request_timeout_ms" := Int (120 * 1000);
       "heartbeat_interval_ms" := Int 10000 ]}
    kwargs.

Definition __init__ (location : string) (enable_ssl : bool) (cert_path : string)
    (topic group : string) (partition_id : option Z)
    (enable_sasl : bool) (sasl_username sasl_password : string) : Result t :=
  configs ← consumer_configs location enable_ssl cert_path topic group partition_id
              enable_sasl sasl_username sasl_password;
  consumer ← Kafka.KafkaConsumer configs;
  (* explicitly causing consumer to bootstrap the cluster metadata *)
  let consumer := Kafka.topics consumer in
  match partition_id with
  | Some pid =>
      let partitions := [Kafka.mkTopicPartition topic pid] in
      Ok (mk location group topic (Kafka.assign partitions consumer) partitions)
  | None =>
      match Kafka.partitions_for_topic topic consumer with
      | Some pids =>
          let partitions := map (Kafka.mkTopicPartition topic) pids in
          Ok (mk location group topic (Kafka.subscribe [topic] consumer) partitions)
      | None => Raise (TypeError "'NoneType' object is not iterable")
      end
  end.

(** The [while count > 0] loop of [get_messages].  Each turn either takes a
    record and decrements [count], or breaks on [StopIteration]; [fuel]
    bounds the number of turns and [None] means it ran out. *)
Fixpoint get_messages_loop (fuel : nat) (count : Z) (consumer : K)
    (result : list string) : option (list string * K) :=
  if bool_decide (count > 0) then
    match fuel with
    | O => None
    | S fuel =>
        match Kafka.next consumer with
        | (Some m, consumer) =>
            get_messages_loop fuel (count - 1) consumer (result ++ [Kafka.value m])
        | (None, consumer) => Some (result, consumer)
        end
    end
  else Some (result, consumer).

Definition with_consumer (self : t) (consumer : K) : t :=
  mk (_location self) (_group self) (_topic self) consumer (_partitions self).

(** [get_messages(self, timeout=0.1, count=1)]; [count] turns of the loop
    are always enough (see [get_messages_total]). *)
Definition get_messages (self : t) (timeout : Q) (count : Z) : option (list string * t) :=
  '(result, consumer) ← get_messages_loop (Z.to_nat count) count (_consumer self) [];
  Some (result, with_consumer self consumer).

Fixpoint get_offset_loop (partitions : list Kafka.TopicPartition) (consumer : K)
    (partition_id : Z) : Result Z :=
  match partitions with
  | tp :: partitions =>
      if bool_decide (Kafka.partition tp = partition_id)
      then Kafka.position tp consumer
      else get_offset_loop partitions consumer partition_id
  | [] => Raise (KeyError [Str "Can't find partition %d"; Int partition_id])
  end.

Definition get_offset (self : t) (partition_id : Z) : Result Z :=
  get_offset_loop (_partitions self) (_consumer self) partition_id.

(** [close]: the outcome of the call and the object afterwards. *)
Definition close (self : t) : Result unit * t :=
  match Kafka.commit (_consumer self) with
  | (Some e, consumer) => (Raise e, with_consumer self consumer)
  | (None, consumer) => (Ok (), with_consumer self (Kafka.close consumer))
  end.

End Consumer.
Arguments t K : clear implicits.
End Consumer.

(** ** [class SimpleProducer]: the unkeyed producer *)

Module SimpleProducer.

Record t : Type := mk {
  _location : string;
  _topic : string;
  _compression : Value;
  _producer : Kafka.Producer;
}.

Definition with_producer (self : t) (producer : Kafka.Producer) : t :=
  mk (_location self) (_topic self) (_compression self) producer.

(** [_create(self, **kwargs)], given the attributes [__init__] has set. *)
Definition _create `{!Kafka.ProducerApi} (location topic : string)
    (compression : Value) (kwargs : Kwargs) : Result t :=
  let '(max_request_size, kwargs) :=
    pop "max_request_size" (Int DEFAULT_MAX_REQUEST_SIZE) kwargs in
  configs ← call_kwargs Kafka.producer_callee
    {[ "bootstrap_servers" := Str location;
       "retries" := Int 5;
       "compression_type" := compression;
       "max_request_size" := max_request_size ]} kwargs;
  producer ← Kafka.KafkaProducer configs;
  Ok (mk location topic compression producer).

Definition __init__ `{!Kafka.ProducerApi} (location : string) (enable_ssl : bool)
    (cert_path : string) (topic : string) (compression : Value)
    (enable_sasl : bool) (sasl_username sasl_password : string)
    (kwargs : Kwargs) : Result t :=
  let kwargs :=
    if enable_ssl then update kwargs (_prepare_kafka_ssl_kwargs cert_path)
    else if enable_sasl
         then update kwargs (_prepare_kafka_sasl_kwargs sasl_username sasl_password)
         else kwargs in
  _create location topic compression kwargs.

(** [send(self, key, *messages)] *)
Definition send (self : t) (key : Value) (messages : list string) : t :=
  with_producer self
    (foldl (fun producer msg => Kafka.send (_topic self) None msg producer)
           (_producer self) messages).

Definition flush (self : t) : t :=
  with_producer self (Kafka.flush (_producer self)).

Definition close (self : t) : t :=
  with_producer self (Kafka.producer_close (_producer self)).

End SimpleProducer.

(** ** [class KeyedProducer] *)

Module KeyedProducer.

Record t : Type := mk {
  _location : string;
  _topic_done : string;
  _partitioner : Partitioner;
  _compression : Value;
  _producer : Kafka.Producer;
}.

Definition with_producer (self : t) (producer : Kafka.Producer) : t :=
  mk (_location self) (_topic_done self) (_partitioner self) (_compression self) producer.

Definition __init__ `{!Kafka.ProducerApi} (location : string) (enable_ssl : bool)
    (cert_path : string) (topic_done : string) (partitioner : Partitioner)
    (compression : Value) (enable_sasl : bool) (sasl_username sasl_password : string)
    (kwargs : Kwargs) : Result t :=
  let '(max_request_size, kwargs) :=
    pop "max_request_size" (Int DEFAULT_MAX_REQUEST_SIZE) kwargs in
  let kwargs :=
    if enable_ssl then update kwargs (_prepare_kafka_ssl_kwargs cert_path)
    else if enable_sasl
         then update kwargs (_prepare_kafka_sasl_kwargs sasl_username sasl_password)
         else kwargs in
  configs ← call_kwargs Kafka.producer_callee
    {[ "bootstrap_servers" := Str location;
       "partitioner" := PartitionerObj partitioner;
       "retries" := Int 5;
       "compression_type" := compression;
       "max_request_size" := max_request_size ]} kwargs;
  producer ← Kafka.KafkaProducer configs;
  Ok (mk location topic_done partitioner compression producer).

(** [send(self, key, *messages)] *)
Definition send (self : t) (key : Value) (messages : list string) : t :=
  with_producer self
    (foldl (fun producer msg => Kafka.send (_topic_done self) (Some key) msg producer)
           (_producer self) messages).

Definition flush (self : t) : t :=
  with_producer self (Kafka.flush (_producer self)).

(** [get_offset] is [pass]: it returns Python's [None]. *)
Definition get_offset (self : t) (partition_id : Z) : Value := None_.

End KeyedProducer.

(** ** [class MessageBus]: the resolved configuration

    The attributes [__init__] reads from the settings, at the types the
    settings document for them. *)

Record MessageBus : Type := mkMessageBus {
  topic_todo : string;
  topic_done : string;
  topic_scoring : string;
  topic_stats : string;
  spiderlog_dbw_group : string;
  spiderlog_sw_group : string;
  scoringlog_dbw_group : string;
  statslog_reader_group : string;
  spider_feed_group : string;
  spider_partition_id : option Z;
  max_next_requests : Z;
  hostname_partitioning : bool;
  codec : Value;
  kafka_location : string;
  enable_ssl : bool;
  cert_path : string;
  enable_sasl : bool;
  sasl_username : string;
  sasl_password : string;
  spider_log_partitions : Z;
  spider_feed_partitions : Z;
  kafka_max_block_ms : Value;
}.

(** The [batch_size], [buffer_memory] and [max_block_ms] keywords every
    facade passes to its producer. *)
Definition producer_kwargs (kafka_max_block_ms : Value) : Kwargs :=
  {[ "batch_size" := Int DEFAULT_BATCH_SIZE;
     "buffer_memory" := Int DEFAULT_BUFFER_MEMORY;
     "max_block_ms" := kafka_max_block_ms ]}.

(** [assert len(c._consumer.partitions_for_topic(topic)) == partitions, msg] *)
Definition assert_partitions {K} `{!Kafka.ConsumerApi K} (c : Consumer.t K)
    (topic : string) (partitions : Z) (msg : option string) : Result (Consumer.t K) :=
  match Kafka.partitions_for_topic topic (Consumer._consumer c) with
  | Some pids =>
      if bool_decide (Z.of_nat (length pids) = partitions)
      then Ok c
      else Raise (AssertionError msg)
  | None => Raise (TypeError "object of type 'NoneType' has no len()")
  end.

(** ** [class SpiderLogStream] *)

Module SpiderLogStream.

Record t : Type := mk {
  _location : string;
  _db_group : string;
  _sw_group : string;
  _topic : string;
  _codec : Value;
  _partitions : Z;
  _enable_ssl : bool;
  _cert_path : string;
  _enable_sasl : bool;
  _sasl_username : string;
  _sasl_password : string;
  _kafka_max_block_ms : Value;
}.

Definition __init__ (messagebus : MessageBus) : t :=
  {| _location := kafka_location messagebus;
     _db_group := spiderlog_dbw_group messagebus;
     _sw_group := spiderlog_sw_group messagebus;
     _topic := topic_done messagebus;
     _codec := codec messagebus;
     _partitions := spider_log_partitions messagebus;
     _enable_ssl := enable_ssl messagebus;
     _cert_path := cert_path messagebus;
     _enable_sasl := enable_sasl messagebus;
     _sasl_username := sasl_username messagebus;
     _sasl_password := sasl_password messagebus;
     _kafka_max_block_ms := kafka_max_block_ms messagebus |}.

Definition producer `{!Kafka.ProducerApi} (self : t) : Result KeyedProducer.t :=
  KeyedProducer.__init__ (_location self) (_enable_ssl self) (_cert_path self)
    (_topic self) (FingerprintPartitioner (_partitions self)) (_codec self)
    (_enable_sasl self) (_sasl_username self) (_sasl_password self)
    (producer_kwargs (_kafka_max_block_ms self)).

(** [group = self._sw_group if type == b'sw' else self._db_group] *)
Definition consumer_group (self : t) (type : Value) : string :=
  if Py.eq type (Bytes "sw") then _sw_group self else _db_group self.

(** Creates spider log consumer with BaseStreamConsumer interface;
    [partition_id] can be None or integer, [type] either 'db' or 'sw'. *)
Definition consumer {K} `{!Kafka.ConsumerApi K} (self : t)
    (partition_id : option Z) (type : Value) : Result (Consumer.t K) :=
  let group := consumer_group self type in
  c ← Consumer.__init__ (_location self) (_enable_ssl self) (_cert_path self)
        (_topic self) group partition_id
        (_enable_sasl self) (_sasl_username self) (_sasl_password self);
  assert_partitions c (_topic self) (_partitions self) None.

End SpiderLogStream.

(** ** [class SpiderFeedStream] *)

Module SpiderFeedStream.
Section SpiderFeedStream.
Context {F : Type} `{!Kafka.OffsetsFetcherApi F}.

Record t : Type := mk {
  _location : string;
  _general_group : string;
  _topic : string;
  _max_next_requests : Z;
  _hostname_partitioning : bool;
  _enable_ssl : bool;
  _cert_path : string;
  _enable_sasl : bool;
  _sasl_username : string;
  _sasl_password : string;
  _offset_fetcher : F;
  _codec : Value;
  _partitions : Z;
  _kafka_max_block_ms : Value;
}.

Definition __init__ (messagebus : MessageBus) : t :=
  let kwargs : Kwargs :=
    {[ "bootstrap_servers" := Str (kafka_location messagebus);
       "topic" := Str (topic_todo messagebus);
       "group_id" := Str (spider_feed_group messagebus) ]} in
  let kwargs :=
    if enable_ssl messagebus
    then update kwargs (_prepare_kafka_ssl_kwargs (cert_path messagebus))
    else if enable_sasl messagebus
         then update kwargs (_prepare_kafka_sasl_kwargs (sasl_username messagebus)
                                                        (sasl_password messagebus))
         else kwargs in
  {| _location := kafka_location messagebus;
     _general_group := spider_feed_group messagebus;
     _topic := topic_todo messagebus;
     _max_next_requests := max_next_requests messagebus;
     _hostname_partitioning := hostname_partitioning messagebus;
     _enable_ssl := enable_ssl messagebus;
     _cert_path := cert_path messagebus;
     _enable_sasl := enable_sasl messagebus;
     _sasl_username := sasl_username messagebus;
     _sasl_password := sasl_password messagebus;
     _offset_fetcher := Kafka.OffsetsFetcherAsync kwargs;
     _codec := codec messagebus;
     _partitions := spider_feed_partitions messagebus;
     _kafka_max_block_ms := kafka_max_block_ms messagebus |}.

Definition consumer {K} `{!Kafka.ConsumerApi K} (self : t)
    (partition_id : option Z) : Result (Consumer.t K) :=
  c ← Consumer.__init__ (_location self) (_enable_ssl self) (_cert_path self)
        (_topic self) (_general_group self) partition_id
        (_enable_sasl self) (_sasl_username self) (_sasl_password self);
  assert_partitions c (_topic self) (_partitions self)
    (Some "Number of kafka topic partitions doesn't match value in config for spider feed").

(** The loop over [six.iteritems(lags)]: one turn per entry of the
    dictionary, appending the partition when its lag is under the limit.
    The entries are taken in the order of [map_to_list]; the order in which
    Python iterates the dictionary (insertion order) is not modelled, so
    the properties below speak of which partitions are returned and of how
    many, not of their order. *)
Definition available_partitions (self : t) : list Z :=
  let lags := Kafka.get (_offset_fetcher self) in
  foldl (fun (partitions : list Z) '(partition, lag) =>
           if bool_decide (lag < _max_next_requests self)
           then (partitions ++ [partition])%list
           else partitions)
        [] (map_to_list lags).

Definition producer `{!Kafka.ProducerApi} (self : t) : Result KeyedProducer.t :=
  let partitioner :=
    if _hostname_partitioning self
    then Crc32NamePartitioner (_partitions self)
    else FingerprintPartitioner (_partitions self) in
  KeyedProducer.__init__ (_location self) (_enable_ssl self) (_cert_path self)
    (_topic self) partitioner (_codec self)
    (_enable_sasl self) (_sasl_username self) (_sasl_password self)
    (producer_kwargs (_kafka_max_block_ms self)).

End SpiderFeedStream.
Arguments t F : clear implicits.
End SpiderFeedStream.

(** ** [class ScoringLogStream] *)

Module ScoringLogStream.

Record t : Type := mk {
  _topic : string;
  _group : string;
  _location : string;
  _codec : Value;
  _cert_path : string;
  _enable_ssl : bool;
  _enable_sasl : bool;
  _sasl_username : string;
  _sasl_password : string;
  _kafka_max_block_ms : Value;
}.

Definition __init__ (messagebus : MessageBus) : t :=
  {| _topic := topic_scoring messagebus;
     _group := scoringlog_dbw_group messagebus;
     _location := kafka_location messagebus;
     _codec := codec messagebus;
     _cert_path := cert_path messagebus;
     _enable_ssl := enable_ssl messagebus;
     _enable_sasl := enable_sasl messagebus;
     _sasl_username := sasl_username messagebus;
     _sasl_password := sasl_password messagebus;
     _kafka_max_block_ms := kafka_max_block_ms messagebus |}.

Definition consumer {K} `{!Kafka.ConsumerApi K} (self : t) : Result (Consumer.t K) :=
  Consumer.__init__ (_location self) (_enable_ssl self) (_cert_path self)
    (_topic self) (_group self) None
    (_enable_sasl self) (_sasl_username self) (_sasl_password self).

Definition producer `{!Kafka.ProducerApi} (self : t) : Result SimpleProducer.t :=
  SimpleProducer.__init__ (_location self) (_enable_ssl self) (_cert_path self)
    (_topic self) (_codec self)
    (_enable_sasl self) (_sasl_username self) (_sasl_password self)
    (producer_kwargs (_kafka_max_block_ms self)).

End ScoringLogStream.

(** ** [class StatsLogStream(ScoringLogStream, BaseStatsLogStream)]

    Stats log stream implementation for Kafka message bus.  The interface is
    the same as for scoring log stream, so it's better to reuse it with
    proper topic and group. *)

Module StatsLogStream.

(** An instance has the attributes of the class it inherits from. *)
Definition t : Type := ScoringLogStream.t.

(** [super().__init__(messagebus)], then [_topic] and [_group] are
    assigned again. *)
Definition __init__ (messagebus : MessageBus) : t :=
  let self := ScoringLogStream.__init__ messagebus in
  let self :=
    ScoringLogStream.mk (topic_stats messagebus) (ScoringLogStream._group self)
      (ScoringLogStream._location self) (ScoringLogStream._codec self)
      (ScoringLogStream._cert_path self) (ScoringLogStream._enable_ssl self)
      (ScoringLogStream._enable_sasl self) (ScoringLogStream._sasl_username self)
      (ScoringLogStream._sasl_password self)
      (ScoringLogStream._kafka_max_block_ms self) in
  ScoringLogStream.mk (ScoringLogStream._topic self) (statslog_reader_group messagebus)
    (ScoringLogStream._location self) (ScoringLogStream._codec self)
    (ScoringLogStream._cert_path self) (ScoringLogStream._enable_ssl self)
    (ScoringLogStream._enable_sasl self) (ScoringLogStream._sasl_username self)
    (ScoringLogStream._sasl_password self)
    (ScoringLogStream._kafka_max_block_ms self).

(** [consumer] and [producer] are inherited: method lookup on a
    [StatsLogStream] finds the ones of [ScoringLogStream]. *)
Definition consumer {K} `{!Kafka.ConsumerApi K} (self : t) : Result (Consumer.t K) :=
  ScoringLogStream.consumer self.

Definition producer `{!Kafka.ProducerApi} (self : t) : Result SimpleProducer.t :=
  ScoringLogStream.producer self.

End StatsLogStream.

(** ** The accessors of [MessageBus] *)

Definition spider_log (self : MessageBus) : SpiderLogStream.t :=
  SpiderLogStream.__init__ self.

Definition spider_feed {F} `{!Kafka.OffsetsFetcherApi F} (self : MessageBus)
    : SpiderFeedStream.t F :=
  SpiderFeedStream.__init__ self.

Definition scoring_log (self : MessageBus) : ScoringLogStream.t :=
  ScoringLogStream.__init__ self.

Definition stats_log (self : MessageBus) : StatsLogStream.t :=
  StatsLogStream.__init__ self.

(** ** A reference client

    An in-memory implementation of the two interfaces, used to run the
    definitions on concrete inputs.  A [Cluster] fixes what the broker
    knows: the partitions of every topic, the records a consumer will be
    given, and whether committing fails. *)

Module Sim.

Record Cluster : Type := mkCluster {
  metadata : gmap string (list Z);
  log : list Kafka.ConsumerRecord;
  commit_error : option Exception;
}.

Record Client : Type := mkClient {
  configs : Kwargs;
  assignment : list Kafka.TopicPartition;
  subscription : list string;
  pending : list Kafka.ConsumerRecord;
  consumed : list Kafka.ConsumerRecord;
  committed : list Kafka.ConsumerRecord;
  released : bool;
}.

Definition sim_next (k : Client) : option Kafka.ConsumerRecord * Client :=
  match pending k with
  | r :: rest =>
      (Some r, mkClient (configs k) (assignment k) (subscription k) rest
                 (consumed k ++ [r]) (committed k) (released k))
  | [] => (None, k)
  end.

Definition sim_position (tp : Kafka.TopicPartition) (k : Client) : Result Z :=
  if bool_decide (tp ∈ assignment k)
  then Ok (Z.of_nat (length (filter
             (fun r => Kafka.cr_topic r = Kafka.topic tp
                       ∧ Kafka.cr_partition r = Kafka.partition tp) (consumed k))))
  else Raise (AssertionError (Some "Partition is not assigned")).

Definition sim_commit (cluster : Cluster) (k : Client) : option Exception * Client :=
  match commit_error cluster with
  | Some e => (Some e, k)
  | None =>
      (None, mkClient (configs k) (assignment k) (subscription k) (pending k)
               (consumed k) (consumed k) (released k))
  end.

Definition sim_assign (tps : list Kafka.TopicPartition) (k : Client) : Client :=
  mkClient (configs k) tps (subscription k) (pending k) (consumed k) (committed k)
    (released k).

Definition sim_subscribe (cluster : Cluster) (ts : list string) (k : Client) : Client :=
  mkClient (configs k)
    (t ← ts; Kafka.mkTopicPartition t <$> default [] (metadata cluster !! t))
    ts (pending k) (consumed k) (committed k) (released k).

Definition sim_close (k : Client) : Client :=
  mkClient (configs k) (assignment k) (subscription k) (pending k) (consumed k)
    (committed k) true.

#[local] Instance consumer_api (cluster : Cluster) : Kafka.ConsumerApi Client := {|
  Kafka.consumer_callee := "kafka.consumer.group.KafkaConsumer()";
  Kafka.KafkaConsumer cfg := Ok (mkClient cfg [] [] (log cluster) [] [] false);
  Kafka.topics k := k;
  Kafka.assign := sim_assign;
  Kafka.subscribe := sim_subscribe cluster;
  Kafka.partitions_for_topic t k := metadata cluster !! t;
  Kafka.next := sim_next;
  Kafka.position := sim_position;
  Kafka.commit := sim_commit cluster;
  Kafka.close := sim_close;
|}.

(** The offset [committed(tp)] reports: what was consumed of the partition
    at the last successful commit. *)
Definition sim_committed (tp : Kafka.TopicPartition) (k : Client) : option Z :=
  if bool_decide (tp ∈ assignment k)
  then Some (Z.of_nat (length (filter
               (fun r => Kafka.cr_topic r = Kafka.topic tp
                         ∧ Kafka.cr_partition r = Kafka.partition tp) (committed k))))
  else None.

#[local] Instance commit_model (cluster : Cluster)
  : @Kafka.CommitModel Client (consumer_api cluster).
Proof.
  refine {| Kafka.committed := sim_committed; Kafka.released := released |}.
  - intros k k' Hcommit. simpl in Hcommit. unfold sim_commit in Hcommit.
    destruct (commit_error cluster); [discriminate Hcommit|].
    injection Hcommit as <-. split; [reflexivity|].
    intros tp z. simpl. unfold sim_position, sim_committed. simpl.
    destruct (bool_decide (tp ∈ assignment k)); [|discriminate].
    intros Hz. injection Hz as <-. reflexivity.
  - intros e k k' Hcommit. simpl in Hcommit. unfold sim_commit in Hcommit.
    destruct (commit_error cluster); [|discriminate Hcommit].
    injection Hcommit as _ <-. split; reflexivity.
  - intros k. split; reflexivity.
Defined.

(** A cluster the producer reaches: the constructor never raises. *)
#[local] Instance producer_api : Kafka.ProducerApi := {|
  Kafka.producer_callee := "kafka.producer.kafka.KafkaProducer()";
  Kafka.producer_raises _ := None;
|}.

(** A lag fetcher that holds one fixed snapshot. *)
#[local] Instance fetcher_api (snapshot : gmap Z Z) : Kafka.OffsetsFetcherApi (gmap Z Z) := {|
  Kafka.OffsetsFetcherAsync _ := snapshot;
  Kafka.get f := f;
|}.

End Sim.

(** ** Notions of the design document

    The properties below compare the code with these. *)

(** Modelled from the spec: the Partitioner ([frontera.contrib.backends.
    partitioners], not part of this file) is a pure function from a routing
    key to a partition index.  Given such a function [select], the records a
    producer has accepted for partition [p] of [topic] are those whose key
    selects [p], in the order they were accepted. *)
Definition partition_log (select : Value -> Z) (topic : string) (p : Z)
    (producer : Kafka.Producer) : list Kafka.ProducerRecord :=
  filter (fun r => Kafka.pr_topic r = topic ∧ select <$> Kafka.pr_key r = Some p)
         (Kafka.records producer).

(** [pull(maxCount)] of the design document: take records from the client
    until [maxCount] are taken or the client times out. *)
Fixpoint pull {K} `{!Kafka.ConsumerApi K} (maxCount : nat) (consumer : K)
    : list string * K :=
  match maxCount with
  | O => ([], consumer)
  | S n =>
      match Kafka.next consumer with
      | (Some m, consumer) =>
          let '(batch, consumer) := pull n consumer in
          (Kafka.value m :: batch, consumer)
      | (None, consumer) => ([], consumer)
      end
  end.

(** The client after [calls] calls of [next] in a row, whatever they gave. *)
Fixpoint next_calls {K} `{!Kafka.ConsumerApi K} (calls : nat) (consumer : K) : K :=
  match calls with
  | O => consumer
  | S calls => next_calls calls (Kafka.next consumer).2
  end.

(** The message bus in which the scoring log is configured with the topic
    and the reader group of the stats log. *)
Definition with_stats_as_scoring (messagebus : MessageBus) : MessageBus :=
  {| topic_todo := topic_todo messagebus;
     topic_done := topic_done messagebus;
     topic_scoring := topic_stats messagebus;
     topic_stats := topic_stats messagebus;
     spiderlog_dbw_group := spiderlog_dbw_group messagebus;
     spiderlog_sw_group := spiderlog_sw_group messagebus;
     scoringlog_dbw_group := statslog_reader_group messagebus;
     statslog_reader_group := statslog_reader_group messagebus;
     spider_feed_group := spider_feed_group messagebus;
     spider_partition_id := spider_partition_id messagebus;
     max_next_requests := max_next_requests messagebus;
     hostname_partitioning := hostname_partitioning messagebus;
     codec := codec messagebus;
     kafka_location := kafka_location messagebus;
     enable_ssl := enable_ssl messagebus;
     cert_path := cert_path messagebus;
     enable_sasl := enable_sasl messagebus;
     sasl_username := sasl_username messagebus;
     sasl_password := sasl_password messagebus;
     spider_log_partitions := spider_log_partitions messagebus;
     spider_feed_partitions := spider_feed_partitions messagebus;
     kafka_max_block_ms := kafka_max_block_ms messagebus |}.

(** ** A deployment to run the definitions on

    A bus whose spider feed is configured for 8 partitions, and a cluster in
    which the spider-feed topic has 4 and the spider-log topic has 1. *)

Module Scenario.

Definition bus : MessageBus :=
  {| topic_todo := "frontier-todo";
     topic_done := "frontier-done";
     topic_scoring := "frontier-score";
     topic_stats := "frontier-stats";
     spiderlog_dbw_group := "dbw-spider-log";
     spiderlog_sw_group := "sw-spider-log";
     scoringlog_dbw_group := "dbw-scoring-log";
     statslog_reader_group := "stats-reader-log";
     spider_feed_group := "fetchers-spider-feed";
     spider_partition_id := Some 0;
     max_next_requests := 5;
     hostname_partitioning := false;
     codec := None_;
     kafka_location := "localhost:9092";
     enable_ssl := false;
     cert_path := "";
     enable_sasl := false;
     sasl_username := "";
     sasl_password := "";
     spider_log_partitions := 1;
     spider_feed_partitions := 8;
     kafka_max_block_ms := Int 60000 |}.

Definition record (offset : Z) (payload : string) : Kafka.ConsumerRecord :=
  Kafka.mkConsumerRecord "frontier-done" 0 offset payload.

Definition topics : gmap string (list Z) :=
  {[ "frontier-todo" := [0; 1; 2; 3];
     "frontier-done" := [0];
     "frontier-score" := [0];
     "frontier-stats" := [0] ]}.

(** Three records are waiting; committing works. *)
Definition cluster : Sim.Cluster :=
  Sim.mkCluster topics [record 0 "a"; record 1 "b"; record 2 "c"] None.

(** The same cluster when the group coordinator rejects every commit. *)
Definition failing_cluster : Sim.Cluster :=
  Sim.mkCluster topics [record 0 "a"; record 1 "b"; record 2 "c"]
    (Some (KafkaError "CommitFailedError")).

Definition feed (lags : gmap Z Z) : SpiderFeedStream.t (gmap Z Z) :=
  @spider_feed _ (Sim.fetcher_api lags) bus.

(** A spider-log consumer of the DB-writer group on [cl], as built by
    [Consumer.__init__] with a static assignment of partition 0. *)
Definition db_consumer (cl : Sim.Cluster) : Consumer.t Sim.Client :=
  Consumer.mk "localhost:9092" "dbw-spider-log" "frontier-done"
    (Sim.mkClient ∅ [Kafka.mkTopicPartition "frontier-done" 0] []
       (Sim.log cl) [] [] false)
    [Kafka.mkTopicPartition "frontier-done" 0].

(** The same consumer once it has taken the first two records and
    committed nothing yet. *)
Definition reading_consumer (cl : Sim.Cluster) : Consumer.t Sim.Client :=
  Consumer.mk "localhost:9092" "dbw-spider-log" "frontier-done"
    (Sim.mkClient ∅ [Kafka.mkTopicPartition "frontier-done" 0] []
       [record 2 "c"] [record 0 "a"; record 1 "b"] [] false)
    [Kafka.mkTopicPartition "frontier-done" 0].

Definition keyed : KeyedProducer.t :=
  KeyedProducer.mk "localhost:9092" "frontier-done" (FingerprintPartitioner 1) None_
    (Kafka.new_producer ∅).

End Scenario.

(** ** Further notions and deployments *)

(** The client id [Consumer.__init__] builds: the topic, a dash, and the
    partition number or [all]. *)
Definition client_id_of (topic : string) (partition_id : option Z) : string :=
  topic +:+ "-" +:+ match partition_id with
                    | Some pid => pretty pid
                    | None => "all"
                    end.

(** A caller that makes one [send(key, *messages)] call after the other on
    the same keyed producer. *)
Definition send_calls (self : KeyedProducer.t) (calls : list (Value * list string))
    : KeyedProducer.t :=
  foldl (fun self '(key, messages) => KeyedProducer.send self key messages) self calls.

(** The records of all the calls, call after call. *)
Definition records_of_calls (topic : string) (calls : list (Value * list string))
    : list Kafka.ProducerRecord :=
  '(key, messages) ← calls; Kafka.mkProducerRecord topic (Some key) <$> messages.

(** The reference client when no broker can be reached: the constructor of
    the client raises. *)
Module Unreachable.

#[local] Instance consumer_api : Kafka.ConsumerApi Sim.Client := {|
  Kafka.consumer_callee := "kafka.consumer.group.KafkaConsumer()";
  Kafka.KafkaConsumer cfg := Raise (KafkaError "NoBrokersAvailable");
  Kafka.topics k := k;
  Kafka.assign := Sim.sim_assign;
  Kafka.subscribe ts k := k;
  Kafka.partitions_for_topic t k := None;
  Kafka.next := Sim.sim_next;
  Kafka.position := Sim.sim_position;
  Kafka.commit k := (Some (KafkaError "NoBrokersAvailable"), k);
  Kafka.close := Sim.sim_close;
|}.

#[local] Instance producer_api : Kafka.ProducerApi := {|
  Kafka.producer_callee := "kafka.producer.kafka.KafkaProducer()";
  Kafka.producer_raises _ := Some (KafkaError "NoBrokersAvailable");
|}.

End Unreachable.

(** The security keywords the [if enable_ssl: ... elif enable_sasl: ...] of
    every constructor selects. *)
Definition security_kwargs (enable_ssl : bool) (cert_path : string)
    (enable_sasl : bool) (sasl_username sasl_password : string) : Kwargs :=
  if enable_ssl then _prepare_kafka_ssl_kwargs cert_path
  else if enable_sasl then _prepare_kafka_sasl_kwargs sasl_username sasl_password
  else ∅.

(** The keywords [KeyedProducer.__init__] and [SimpleProducer._create] write
    in their [KafkaProducer(...)] call, [max_request_size] apart. *)
Definition keyed_keywords : list string :=
  ["bootstrap_servers"; "partitioner"; "retries"; "compression_type"].

Definition simple_keywords : list string :=
  ["bootstrap_servers"; "retries"; "compression_type"].

(** What every facade's producer is configured with. *)
Definition facade_config (configs : Kwargs) (max_block_ms : Value) : Prop :=
  configs !! "batch_size" = Some (Int 1048576)
  ∧ configs !! "buffer_memory" = Some (Int 136314880)
  ∧ configs !! "max_block_ms" = Some max_block_ms
  ∧ configs !! "max_request_size" = Some (Int 4194304)
  ∧ configs !! "retries" = Some (Int 5).

(** The spider feed of the scenario with another limit. *)
Definition feed_with_limit (lags : gmap Z Z) (limit : Z)
    : SpiderFeedStream.t (gmap Z Z) :=
  let self := Scenario.feed lags in
  SpiderFeedStream.mk (SpiderFeedStream._location self)
    (SpiderFeedStream._general_group self) (SpiderFeedStream._topic self)
    limit (SpiderFeedStream._hostname_partitioning self)
    (SpiderFeedStream._enable_ssl self) (SpiderFeedStream._cert_path self)
    (SpiderFeedStream._enable_sasl self) (SpiderFeedStream._sasl_username self)
    (SpiderFeedStream._sasl_password self) (SpiderFeedStream._offset_fetcher self)
    (SpiderFeedStream._codec self) (SpiderFeedStream._partitions self)
    (SpiderFeedStream._kafka_max_block_ms self).

(** A cluster that knows no topic at all. *)
Definition empty_cluster : Sim.Cluster := Sim.mkCluster ∅ [] None.

(** * Properties *)

(** ** Keyword arguments *)

(** A call whose written keywords do not occur in [**kwargs] goes through
    with both sets of keywords. *)
Lemma call_kwargs_Ok (callee : string) (explicit kwargs : Kwargs) :
  bool_decide (dom explicit ∩ dom kwargs = (∅ : gset string)) = true →
  call_kwargs callee explicit kwargs = Ok (explicit ∪ kwargs).
Proof.
  intros Hempty%bool_decide_eq_true. unfold call_kwargs.
  by rewrite Hempty, elements_empty.
Qed.

(** The keywords of the [KafkaConsumer(...)] call never clash: the call
    goes through for all arguments, with a [consumer_timeout_ms] of 100. *)
Lemma consumer_configs_timeout {K : Type} `{!Kafka.ConsumerApi K}
    (location : string) (enable_ssl : bool) (cert_path topic group : string)
    (partition_id : option Z) (enable_sasl : bool)
    (sasl_username sasl_password : string) :
  ∃ configs,
    Consumer.consumer_configs location enable_ssl cert_path topic group
      partition_id enable_sasl sasl_username sasl_password = Ok configs
    ∧ configs !! "consumer_timeout_ms" = Some (Int 100).
Proof.
  unfold Consumer.consumer_configs.
  destruct enable_ssl; [|destruct enable_sasl];
    (eexists; split;
     [apply call_kwargs_Ok; vm_compute; reflexivity
     |apply lookup_union_Some_l; vm_compute; reflexivity]).
Qed.

(** ** Admission control: [SpiderFeedStream.available_partitions] *)

Section AvailablePartitions.
Context {F : Type} `{!Kafka.OffsetsFetcherApi F}.

(** The loop appends to what it has collected so far the partitions of the
    entries that pass the test, in the order of the entries. *)
Lemma available_partitions_loop (limit : Z) (items : list (Z * Z)) (acc : list Z) :
  foldl (fun (partitions : list Z) '(partition, lag) =>
           if bool_decide (lag < limit)
           then (partitions ++ [partition])%list
           else partitions) acc items
  = (acc ++ (filter (fun item => item.2 < limit) items).*1)%list.
Proof.
  revert acc. induction items as [|[partition lag] items IH]; intros acc; simpl.
  - by rewrite app_nil_r.
  - rewrite IH. rewrite filter_cons. simpl.
    case_bool_decide; case_decide; try lia; [|done].
    by rewrite <- app_assoc.
Qed.

Lemma available_partitions_filter (self : SpiderFeedStream.t F) :
  SpiderFeedStream.available_partitions self
  = (filter (fun item => item.2 < SpiderFeedStream._max_next_requests self)
            (map_to_list (Kafka.get (SpiderFeedStream._offset_fetcher self)))).*1.
Proof. unfold SpiderFeedStream.available_partitions. by rewrite available_partitions_loop. Qed.

(** C1.  Whatever lag snapshot the offset fetcher returns and whatever the
    configured [max_next_requests] is, [available_partitions] returns exactly
    the partitions of the snapshot whose lag is strictly below the limit:
    a partition of the snapshot is left out if and only if its lag is at
    least the limit, and no partition is returned twice. *)
Theorem available_partitions_exact (self : SpiderFeedStream.t F) :
  let lags := Kafka.get (SpiderFeedStream._offset_fetcher self) in
  let limit := SpiderFeedStream._max_next_requests self in
  (∀ p : Z, p ∈ SpiderFeedStream.available_partitions self
            ↔ ∃ lag, lags !! p = Some lag ∧ lag < limit)
  ∧ (∀ (p lag : Z), lags !! p = Some lag →
       (p ∉ SpiderFeedStream.available_partitions self ↔ lag >= limit))
  ∧ NoDup (SpiderFeedStream.available_partitions self).
Proof.
  intros lags limit.
  assert (Hin : ∀ p : Z, p ∈ SpiderFeedStream.available_partitions self
                         ↔ ∃ lag, lags !! p = Some lag ∧ lag < limit).
  { intros p. rewrite available_partitions_filter, list_elem_of_fmap. split.
    - intros [[q lag] [-> Hq]]. apply list_elem_of_filter in Hq as [Hlt Hq].
      apply elem_of_map_to_list in Hq. by exists lag.
    - intros [lag [Hp Hlt]]. exists (p, lag). split; [done|].
      apply list_elem_of_filter. split; [done|]. by apply elem_of_map_to_list. }
  split; [exact Hin|]. split.
  - intros p lag Hp. rewrite Hin. split.
    + intros Hno. destruct (decide (lag < limit)) as [Hlt|]; [|lia].
      exfalso. apply Hno. by exists lag.
    + intros Hge [lag' [Hp' Hlt]]. rewrite Hp in Hp'. simplify_eq. lia.
  - rewrite available_partitions_filter.
    eapply sublist_NoDup; [|apply fmap_sublist, sublist_filter].
    apply NoDup_fst_map_to_list.
Qed.

End AvailablePartitions.

(** ** Partition-count validation at stream construction *)

Section PartitionCount.
Context {K : Type} `{!Kafka.ConsumerApi K} `{!Kafka.ProducerApi}.

(** The assertion lets a consumer through exactly when the topic is known
    and has the configured number of partitions. *)
Lemma assert_partitions_Ok (c c' : Consumer.t K) (topic : string) (n : Z)
    (msg : option string) :
  assert_partitions c topic n msg = Ok c' ↔
  c' = c ∧ ∃ pids, Kafka.partitions_for_topic topic (Consumer._consumer c) = Some pids
                   ∧ Z.of_nat (length pids) = n.
Proof.
  unfold assert_partitions.
  destruct (Kafka.partitions_for_topic topic (Consumer._consumer c)) as [pids|].
  - case_bool_decide; split.
    + intros [= ->]. eauto.
    + by intros [-> _].
    + done.
    + intros [_ [pids' [[= ->] ?]]]. done.
  - split; [done|]. by intros [_ [pids [? _]]].
Qed.

Lemma assert_partitions_mismatch (c : Consumer.t K) (topic : string) (n : Z)
    (msg : option string) (pids : list Z) :
  Kafka.partitions_for_topic topic (Consumer._consumer c) = Some pids →
  Z.of_nat (length pids) ≠ n →
  assert_partitions c topic n msg = Raise (AssertionError msg).
Proof.
  intros Hpids Hne. unfold assert_partitions. rewrite Hpids.
  by rewrite bool_decide_eq_false_2.
Qed.

Lemma bind_Ok {A B : Type} (m : Result A) (f : A → Result B) (b : B) :
  m ≫= f = Ok b ↔ ∃ a, m = Ok a ∧ f a = Ok b.
Proof.
  destruct m as [a|e]; simpl; split.
  - intros Hf. by exists a.
  - by intros [a' [[= ->] Hf]].
  - done.
  - by intros [a' [? _]].
Qed.

(** C2, as the code has it.  The spider-log and the spider-feed facade
    validate the partition count when they create a consumer: once the
    underlying [Consumer] is built, a topic whose partition count differs
    from the configured one makes [consumer] raise [AssertionError], and a
    consumer that is returned always saw the configured number of
    partitions.  Nothing else validates it: the outcome of [producer] on any
    facade is the outcome of the [KafkaProducer] constructor on one
    configuration, whatever the partitions of the topic are, and [consumer]
    of the scoring log and of the stats log returns the subscribed consumer
    for a topic of any number of partitions. *)
Theorem consumer_creation_checks_partition_count :
  (∀ (self : SpiderLogStream.t) (partition_id : option Z) (type : Value)
     (c : Consumer.t K) (pids : list Z),
     Consumer.__init__ (SpiderLogStream._location self)
       (SpiderLogStream._enable_ssl self) (SpiderLogStream._cert_path self)
       (SpiderLogStream._topic self) (SpiderLogStream.consumer_group self type)
       partition_id (SpiderLogStream._enable_sasl self)
       (SpiderLogStream._sasl_username self) (SpiderLogStream._sasl_password self)
     = Ok c →
     Kafka.partitions_for_topic (SpiderLogStream._topic self) (Consumer._consumer c)
     = Some pids →
     Z.of_nat (length pids) ≠ SpiderLogStream._partitions self →
     SpiderLogStream.consumer self partition_id type = Raise (AssertionError None))
  ∧ (∀ (F : Type) (self : SpiderFeedStream.t F)
       (partition_id : option Z) (c : Consumer.t K) (pids : list Z),
     Consumer.__init__ (SpiderFeedStream._location self)
       (SpiderFeedStream._enable_ssl self) (SpiderFeedStream._cert_path self)
       (SpiderFeedStream._topic self) (SpiderFeedStream._general_group self)
       partition_id (SpiderFeedStream._enable_sasl self)
       (SpiderFeedStream._sasl_username self) (SpiderFeedStream._sasl_password self)
     = Ok c →
     Kafka.partitions_for_topic (SpiderFeedStream._topic self) (Consumer._consumer c)
     = Some pids →
     Z.of_nat (length pids) ≠ SpiderFeedStream._partitions self →
     SpiderFeedStream.consumer self partition_id
     = Raise (AssertionError (Some
         "Number of kafka topic partitions doesn't match value in config for spider feed")))
  ∧ (∀ (self : SpiderLogStream.t) (partition_id : option Z) (type : Value)
       (c : Consumer.t K),
     SpiderLogStream.consumer self partition_id type = Ok c →
     ∃ pids, Kafka.partitions_for_topic (SpiderLogStream._topic self)
               (Consumer._consumer c) = Some pids
             ∧ Z.of_nat (length pids) = SpiderLogStream._partitions self)
  ∧ (∀ (F : Type) (self : SpiderFeedStream.t F)
       (partition_id : option Z) (c : Consumer.t K),
     SpiderFeedStream.consumer self partition_id = Ok c →
     ∃ pids, Kafka.partitions_for_topic (SpiderFeedStream._topic self)
               (Consumer._consumer c) = Some pids
             ∧ Z.of_nat (length pids) = SpiderFeedStream._partitions self)
  ∧ (∀ self : SpiderLogStream.t,
       ∃ configs,
         SpiderLogStream.producer self
         = (producer ← Kafka.KafkaProducer configs;
            Ok (KeyedProducer.mk (SpiderLogStream._location self)
                  (SpiderLogStream._topic self)
                  (FingerprintPartitioner (SpiderLogStream._partitions self))
                  (SpiderLogStream._codec self) producer)))
  ∧ (∀ (F : Type) (self : SpiderFeedStream.t F),
       ∃ configs,
         SpiderFeedStream.producer self
         = (producer ← Kafka.KafkaProducer configs;
            Ok (KeyedProducer.mk (SpiderFeedStream._location self)
                  (SpiderFeedStream._topic self)
                  (if SpiderFeedStream._hostname_partitioning self
                   then Crc32NamePartitioner (SpiderFeedStream._partitions self)
                   else FingerprintPartitioner (SpiderFeedStream._partitions self))
                  (SpiderFeedStream._codec self) producer)))
  ∧ (∀ self : ScoringLogStream.t,
       (∃ configs,
          ScoringLogStream.producer self
          = (producer ← Kafka.KafkaProducer configs;
             Ok (SimpleProducer.mk (ScoringLogStream._location self)
                   (ScoringLogStream._topic self) (ScoringLogStream._codec self)
                   producer))
          ∧ StatsLogStream.producer self = ScoringLogStream.producer self)
       ∧ ∃ configs, ∀ (k : K) (pids : list Z),
           Kafka.KafkaConsumer configs = Ok k →
           Kafka.partitions_for_topic (ScoringLogStream._topic self) (Kafka.topics k)
           = Some pids →
           let c :=
             Consumer.mk (ScoringLogStream._location self)
               (ScoringLogStream._group self) (ScoringLogStream._topic self)
               (Kafka.subscribe [ScoringLogStream._topic self] (Kafka.topics k))
               (Kafka.mkTopicPartition (ScoringLogStream._topic self) <$> pids) in
           ScoringLogStream.consumer self = Ok c
           ∧ StatsLogStream.consumer self = Ok c).
Proof.
  split; [|split; [|split; [|split; [|split; [|split]]]]].
  - intros self partition_id type c pids Hc Hpids Hne.
    unfold SpiderLogStream.consumer. simpl. rewrite Hc. simpl.
    by eapply assert_partitions_mismatch.
  - intros F self partition_id c pids Hc Hpids Hne.
    unfold SpiderFeedStream.consumer. rewrite Hc. simpl.
    by eapply assert_partitions_mismatch.
  - intros self partition_id type c Hc.
    unfold SpiderLogStream.consumer in Hc. simpl in Hc.
    apply bind_Ok in Hc as [c0 [_ Hc]].
    apply assert_partitions_Ok in Hc as [-> Hc]. exact Hc.
  - intros F self partition_id c Hc.
    unfold SpiderFeedStream.consumer in Hc.
    apply bind_Ok in Hc as [c0 [_ Hc]].
    apply assert_partitions_Ok in Hc as [-> Hc]. exact Hc.
  - intros [location db sw topic codec n ssl cert sasl user password block].
    unfold SpiderLogStream.producer, KeyedProducer.__init__, pop.
    cbv beta iota zeta.
    destruct ssl; [|destruct sasl];
      (rewrite call_kwargs_Ok by (vm_compute; reflexivity); eexists; reflexivity).
  - intros F [location group topic limit hostname ssl cert sasl user password
                fetcher codec n block].
    unfold SpiderFeedStream.producer, KeyedProducer.__init__, pop.
    cbv beta iota zeta.
    destruct ssl; [|destruct sasl];
      (rewrite call_kwargs_Ok by (vm_compute; reflexivity); eexists; reflexivity).
  - intros self. split.
    + destruct self as [topic group location codec cert ssl sasl user password block].
      unfold StatsLogStream.producer, ScoringLogStream.producer,
        SimpleProducer.__init__, SimpleProducer._create, pop.
      cbv beta iota zeta.
      destruct ssl; [|destruct sasl];
        (match goal with
         | |- context [default _ (?m !! "max_request_size")] =>
             replace (m !! "max_request_size") with (@None Value)
               by (vm_compute; reflexivity)
         end;
         cbn [default];
         rewrite call_kwargs_Ok by (vm_compute; reflexivity);
         eexists; split; reflexivity).
    + destruct (consumer_configs_timeout (ScoringLogStream._location self)
                  (ScoringLogStream._enable_ssl self) (ScoringLogStream._cert_path self)
                  (ScoringLogStream._topic self) (ScoringLogStream._group self) None
                  (ScoringLogStream._enable_sasl self)
                  (ScoringLogStream._sasl_username self)
                  (ScoringLogStream._sasl_password self)) as (configs & Hcfg & _).
      exists configs. intros k pids Hk Hpids c.
      unfold StatsLogStream.consumer, ScoringLogStream.consumer, Consumer.__init__.
      rewrite Hcfg. simpl. rewrite Hk. simpl. rewrite Hpids. done.
Qed.

End PartitionCount.

(** The spider feed is configured for 8 partitions and its topic has 4:
    creating the consumer fails on the assertion. *)
Lemma consumer_creation_checks_partition_count_witness :
  @SpiderFeedStream.consumer _ _ (Sim.consumer_api Scenario.cluster)
    (Scenario.feed ∅) (Some 0)
  = Raise (AssertionError (Some
      "Number of kafka topic partitions doesn't match value in config for spider feed")).
Proof.
  eapply (proj1 (proj2 (@consumer_creation_checks_partition_count _
            (Sim.consumer_api Scenario.cluster) Sim.producer_api))).
  - vm_compute. reflexivity.
  - vm_compute. reflexivity.
  - vm_compute. discriminate.
Defined.

(** C2 as stated fails for producers: with the same mismatch (8 configured,
    4 in the topic) the spider-feed facade hands out a producer, and the
    scoring-log facade, which has no configured partition count at all,
    hands out a consumer. *)
Lemma producer_creation_skips_partition_count :
  Sim.metadata Scenario.cluster !! topic_todo Scenario.bus = Some [0; 1; 2; 3]
  ∧ spider_feed_partitions Scenario.bus = 8
  ∧ ¬ (∃ e, @SpiderFeedStream.producer _ Sim.producer_api (Scenario.feed ∅) = Raise e)
  ∧ (∃ p, @SpiderFeedStream.producer _ Sim.producer_api (Scenario.feed ∅) = Ok p
          ∧ KeyedProducer._topic_done p = "frontier-todo"
          ∧ KeyedProducer._partitioner p = FingerprintPartitioner 8).
Proof.
  split; [by vm_compute|]. split; [done|]. split.
  - intros [e He]. vm_compute in He. discriminate He.
  - eexists. split; [vm_compute; reflexivity|]. done.
Qed.

(** ** Producers: what [send] publishes *)

Section Producers.

(** A loop of [producer.send] calls appends one record per message, in the
    order of the messages. *)
Lemma send_loop_records (topic : string) (key : option Value)
    (messages : list string) (producer : Kafka.Producer) :
  Kafka.records
    (foldl (fun producer msg => Kafka.send topic key msg producer) producer messages)
  = (Kafka.records producer ++ map (Kafka.mkProducerRecord topic key) messages)%list.
Proof.
  revert producer. induction messages as [|msg messages IH]; intros producer; simpl.
  - by rewrite app_nil_r.
  - rewrite IH. simpl. by rewrite <- app_assoc.
Qed.

(** The loop touches nothing but the buffered records. *)
Lemma send_loop_config (topic : string) (key : option Value)
    (messages : list string) (producer : Kafka.Producer) :
  let producer' :=
    foldl (fun producer msg => Kafka.send topic key msg producer) producer messages in
  Kafka.config producer' = Kafka.config producer
  ∧ Kafka.flushed producer' = Kafka.flushed producer
  ∧ Kafka.closed producer' = Kafka.closed producer.
Proof.
  revert producer. induction messages as [|msg messages IH]; intros producer; simpl.
  - done.
  - destruct (IH (Kafka.send topic key msg producer)) as (-> & -> & ->). done.
Qed.

(** C3.  [KeyedProducer.send(K, m1..mk)] publishes every message to the
    producer's topic with routing key [K], in argument order, after what the
    producer had accepted before.  Hence, for every partitioner [select],
    the log of the partition [K] selects grows by exactly [m1..mk] in send
    order, and the log of every other partition is unchanged. *)
Theorem keyed_send_in_order (self : KeyedProducer.t) (key : Value)
    (messages : list string) :
  let published :=
    map (Kafka.mkProducerRecord (KeyedProducer._topic_done self) (Some key)) messages in
  let self' := KeyedProducer.send self key messages in
  Kafka.records (KeyedProducer._producer self')
  = (Kafka.records (KeyedProducer._producer self) ++ published)%list
  ∧ (∀ (i : nat) (m : string), messages !! i = Some m →
       Kafka.records (KeyedProducer._producer self')
         !! (length (Kafka.records (KeyedProducer._producer self)) + i)%nat
       = Some (Kafka.mkProducerRecord (KeyedProducer._topic_done self) (Some key) m))
  ∧ (∀ (select : Value → Z) (p : Z),
       partition_log select (KeyedProducer._topic_done self) p
         (KeyedProducer._producer self')
       = (partition_log select (KeyedProducer._topic_done self) p
            (KeyedProducer._producer self)
          ++ if decide (p = select key) then published else [])%list).
Proof.
  intros published self'.
  assert (Hrec : Kafka.records (KeyedProducer._producer self')
                 = (Kafka.records (KeyedProducer._producer self) ++ published)%list).
  { unfold self', KeyedProducer.send. simpl. apply send_loop_records. }
  split; [exact Hrec|]. split.
  - intros i m Hm. rewrite Hrec, lookup_app_r by lia.
    replace (length _ + i - length _)%nat with i by lia.
    unfold published. by rewrite list_lookup_fmap, Hm.
  - intros select p. unfold partition_log. rewrite Hrec, filter_app. f_equal.
    unfold published. clear. induction messages as [|m messages IH]; simpl.
    + by destruct (decide (p = select key)).
    + rewrite filter_cons. simpl. destruct (decide (p = select key)) as [->|Hne].
      * rewrite decide_True by done. by rewrite IH.
      * rewrite decide_False; [exact IH|]. intros [_ [= Heq]]. by apply Hne.
Qed.

(** C8.  [SimpleProducer.send] ignores its [key] argument: with any two keys
    and the same messages it leaves the producer in the same state, in which
    the messages were published to the producer's topic, in order, with no
    routing key. *)
Theorem simple_send_ignores_key (self : SimpleProducer.t) (k1 k2 : Value)
    (messages : list string) :
  SimpleProducer.send self k1 messages = SimpleProducer.send self k2 messages
  ∧ Kafka.records (SimpleProducer._producer (SimpleProducer.send self k1 messages))
    = (Kafka.records (SimpleProducer._producer self)
       ++ map (Kafka.mkProducerRecord (SimpleProducer._topic self) None) messages)%list
  ∧ (∀ r, r ∈ map (Kafka.mkProducerRecord (SimpleProducer._topic self) None) messages →
          Kafka.pr_key r = None ∧ Kafka.pr_topic r = SimpleProducer._topic self).
Proof.
  split; [reflexivity|]. split.
  - unfold SimpleProducer.send. simpl. apply send_loop_records.
  - intros r Hr. apply list_elem_of_fmap in Hr as [m [-> _]]. done.
Qed.

End Producers.

(** ** The stream consumer *)

Section ConsumerProperties.
Context {K : Type} `{!Kafka.ConsumerApi K}.

(** *** [get_messages] *)

(** With at least [count] turns of fuel the loop returns, and what it
    returns is what it had collected followed by the records [pull] takes. *)
Lemma get_messages_loop_pull (fuel : nat) (count : Z) (consumer : K)
    (result : list string) :
  (Z.to_nat count ≤ fuel)%nat →
  Consumer.get_messages_loop fuel count consumer result
  = Some ((result ++ (pull (Z.to_nat count) consumer).1)%list,
          (pull (Z.to_nat count) consumer).2).
Proof.
  revert count consumer result.
  induction fuel as [|fuel IH]; intros count consumer result Hfuel; simpl.
  - case_bool_decide; [lia|].
    replace (Z.to_nat count) with 0%nat by lia. simpl. by rewrite app_nil_r.
  - case_bool_decide as Hcount.
    + replace (Z.to_nat count) with (S (Z.to_nat (count - 1))) by lia. simpl.
      destruct (Kafka.next consumer) as [[m|] consumer'].
      * rewrite IH by lia.
        destruct (pull (Z.to_nat (count - 1)) consumer') as [batch consumer''].
        simpl. by rewrite <- app_assoc.
      * simpl. by rewrite app_nil_r.
    + replace (Z.to_nat count) with 0%nat by lia. simpl. by rewrite app_nil_r.
Qed.

Lemma pull_length (n : nat) (consumer : K) :
  (length (pull n consumer).1 ≤ n)%nat.
Proof.
  revert consumer. induction n as [|n IH]; intros consumer; simpl; [lia|].
  destruct (Kafka.next consumer) as [[m|] consumer']; simpl; [|lia].
  specialize (IH consumer'). destruct (pull n consumer') as [batch consumer''].
  simpl in *. lia.
Qed.

(** [get_messages] always returns: the fuel it is given never runs out. *)
Lemma get_messages_total (self : Consumer.t K) (timeout : Q) (count : Z) :
  Consumer.get_messages self timeout count
  = Some ((pull (Z.to_nat count) (Consumer._consumer self)).1,
          Consumer.with_consumer self
            (pull (Z.to_nat count) (Consumer._consumer self)).2).
Proof.
  unfold Consumer.get_messages. by rewrite get_messages_loop_pull.
Qed.

(** C6.  For a batch size [count >= 0], one call of [get_messages] returns a
    batch of at least 0 and at most [count] messages; the batch is built
    from an empty list by that call alone, so a second call from the state
    the first one left returns again, with a batch of its own within its own
    bound. *)
Theorem get_messages_bounded (self : Consumer.t K) (timeout : Q) (count : Z) :
  (0 ≤ count)%Z →
  ∃ (batch : list string) (self' : Consumer.t K),
    Consumer.get_messages self timeout count = Some (batch, self')
    ∧ (0 ≤ Z.of_nat (length batch) ≤ count)%Z
    ∧ batch = (pull (Z.to_nat count) (Consumer._consumer self)).1
    ∧ ∀ (timeout' : Q) (count' : Z), (0 ≤ count')%Z →
        ∃ (batch' : list string) (self'' : Consumer.t K),
          Consumer.get_messages self' timeout' count' = Some (batch', self'')
          ∧ (0 ≤ Z.of_nat (length batch') ≤ count')%Z
          ∧ batch' = (pull (Z.to_nat count') (Consumer._consumer self')).1.
Proof.
  intros Hcount. eexists _, _. split; [apply get_messages_total|].
  split; [|split; [done|]].
  - pose proof (pull_length (Z.to_nat count) (Consumer._consumer self)). lia.
  - intros timeout' count' Hcount'. eexists _, _.
    split; [apply get_messages_total|]. split; [|done].
    match goal with |- context [pull ?n ?k] => pose proof (pull_length n k) end. lia.
Qed.

(** What [pull] does to the client is a number of [next] calls: one per
    message taken, and one more when it stopped on a timeout. *)
Lemma pull_next_calls (n : nat) (consumer : K) :
  ∃ calls : nat,
    (pull n consumer).2 = next_calls calls consumer
    ∧ (length (pull n consumer).1 ≤ calls ≤ n)%nat.
Proof.
  revert consumer. induction n as [|n IH]; intros consumer; simpl.
  - exists 0%nat. split; [done|]. simpl. lia.
  - destruct (Kafka.next consumer) as [[m|] consumer'] eqn:Hnext.
    + destruct (IH consumer') as (calls & Hstate & Hcalls).
      destruct (pull n consumer') as [batch consumer'']. simpl in *.
      exists (S calls). simpl. rewrite Hnext. simpl. split; [done|lia].
    + exists 1%nat. simpl. rewrite Hnext. simpl. split; [done|lia].
Qed.

(** C10.  [get_messages] never looks at [timeout]: with any two timeouts and
    the same [count], from the same consumer, it returns the same batch and
    leaves the same consumer, namely what taking up to [count] records
    gives.  All it does to the client is call [next], at most [count]
    times, so what bounds a call is the timeout of [next]: the
    [consumer_timeout_ms] of 100 in the configuration on which [__init__]
    constructs the client, the same for all arguments of [__init__]. *)
Theorem get_messages_ignores_timeout :
  (∀ (self : Consumer.t K) (t1 t2 : Q) (count : Z),
     Consumer.get_messages self t1 count = Consumer.get_messages self t2 count
     ∧ Consumer.get_messages self t1 count
       = Some ((pull (Z.to_nat count) (Consumer._consumer self)).1,
               Consumer.with_consumer self
                 (pull (Z.to_nat count) (Consumer._consumer self)).2)
     ∧ ∃ calls : nat,
         (pull (Z.to_nat count) (Consumer._consumer self)).2
         = next_calls calls (Consumer._consumer self)
         ∧ (length (pull (Z.to_nat count) (Consumer._consumer self)).1
            ≤ calls ≤ Z.to_nat count)%nat)
  ∧ (∀ (location : string) (enable_ssl : bool) (cert_path topic group : string)
       (partition_id : option Z) (enable_sasl : bool)
       (sasl_username sasl_password : string),
     ∃ configs,
       Consumer.consumer_configs location enable_ssl cert_path topic group
         partition_id enable_sasl sasl_username sasl_password = Ok configs
       ∧ configs !! "consumer_timeout_ms" = Some (Int 100)
       ∧ Consumer.__init__ location enable_ssl cert_path topic group
           partition_id enable_sasl sasl_username sasl_password
         = (consumer ← Kafka.KafkaConsumer configs;
            match partition_id with
            | Some pid =>
                Ok (Consumer.mk location group topic
                      (Kafka.assign [Kafka.mkTopicPartition topic pid]
                         (Kafka.topics consumer))
                      [Kafka.mkTopicPartition topic pid])
            | None =>
                match Kafka.partitions_for_topic topic (Kafka.topics consumer) with
                | Some pids =>
                    Ok (Consumer.mk location group topic
                          (Kafka.subscribe [topic] (Kafka.topics consumer))
                          (Kafka.mkTopicPartition topic <$> pids))
                | None => Raise (TypeError "'NoneType' object is not iterable")
                end
            end)).
Proof.
  split.
  - intros self t1 t2 count. split; [reflexivity|].
    split; [apply get_messages_total|]. apply pull_next_calls.
  - intros location enable_ssl cert_path topic group partition_id enable_sasl
      sasl_username sasl_password.
    destruct (consumer_configs_timeout location enable_ssl cert_path topic group
                partition_id enable_sasl sasl_username sasl_password)
      as (configs & Hcfg & Htimeout).
    exists configs. split; [exact Hcfg|]. split; [exact Htimeout|].
    unfold Consumer.__init__. rewrite Hcfg. reflexivity.
Qed.

End ConsumerProperties.

(** Two records of the three that wait, then the rest and a timeout. *)
Lemma get_messages_bounded_witness :
  ∃ (batch : list string) (self' : Consumer.t Sim.Client),
    @Consumer.get_messages _ (Sim.consumer_api Scenario.cluster)
      (Scenario.db_consumer Scenario.cluster) (1 # 10) 2 = Some (batch, self')
    ∧ (0 ≤ Z.of_nat (length batch) ≤ 2)%Z
    ∧ batch = ["a"; "b"]
    ∧ ∃ (batch' : list string) (self'' : Consumer.t Sim.Client),
        @Consumer.get_messages _ (Sim.consumer_api Scenario.cluster)
          self' (1 # 10) 5 = Some (batch', self'')
        ∧ batch' = ["c"].
Proof.
  destruct (@get_messages_bounded _ (Sim.consumer_api Scenario.cluster)
              (Scenario.db_consumer Scenario.cluster) (1 # 10) 2 ltac:(lia))
    as (batch & self' & Hget & Hlen & Hbatch & Hnext).
  exists batch, self'. split; [exact Hget|]. split; [exact Hlen|].
  split; [exact Hbatch|].
  destruct (Hnext (1 # 10) 5 ltac:(lia)) as (batch' & self'' & Hget' & _ & Hbatch').
  exists batch', self''. split; [exact Hget'|].
  rewrite Hbatch'. rewrite get_messages_total in Hget.
  injection Hget as _ <-. vm_compute. reflexivity.
Defined.

(** The reference client keeps the configuration it was constructed with:
    a consumer of partition 0 is configured with a timeout of 100, and a
    call with a timeout of a tenth of a second gives what a call with a
    timeout of thirty seconds gives. *)
Lemma get_messages_ignores_timeout_witness :
  ∃ c, @Consumer.__init__ _ (Sim.consumer_api Scenario.cluster) "localhost:9092"
         false "" "frontier-done" "dbw-spider-log" (Some 0) false "" "" = Ok c
       ∧ Sim.configs (Consumer._consumer c) !! "consumer_timeout_ms" = Some (Int 100)
       ∧ @Consumer.get_messages _ (Sim.consumer_api Scenario.cluster) c (1 # 10) 2
         = @Consumer.get_messages _ (Sim.consumer_api Scenario.cluster) c 30 2.
Proof.
  destruct (proj2 (@get_messages_ignores_timeout _ (Sim.consumer_api Scenario.cluster))
              "localhost:9092" false "" "frontier-done" "dbw-spider-log" (Some 0)
              false "" "") as (configs & _ & Htimeout & Hinit).
  eexists. split; [rewrite Hinit; reflexivity|]. split; [exact Htimeout|].
  exact (proj1 (proj1 (@get_messages_ignores_timeout _
                         (Sim.consumer_api Scenario.cluster)) _ (1 # 10) 30%Q 2)).
Defined.

Section ConsumerOffsets.
Context {K : Type} `{!Kafka.ConsumerApi K}.

(** *** [get_offset] *)

Lemma get_offset_loop_missing (partitions : list Kafka.TopicPartition)
    (consumer : K) (partition_id : Z) :
  partition_id ∉ Kafka.partition <$> partitions →
  Consumer.get_offset_loop partitions consumer partition_id
  = Raise (KeyError [Str "Can't find partition %d"; Int partition_id]).
Proof.
  induction partitions as [|tp partitions IH]; simpl; [done|].
  intros Hnot. apply not_elem_of_cons in Hnot as [Hne Hnot].
  rewrite bool_decide_eq_false_2 by done. by apply IH.
Qed.

Lemma get_offset_loop_found (partitions : list Kafka.TopicPartition)
    (consumer : K) (partition_id : Z) :
  partition_id ∈ Kafka.partition <$> partitions →
  ∃ tp, tp ∈ partitions ∧ Kafka.partition tp = partition_id
        ∧ Consumer.get_offset_loop partitions consumer partition_id
          = Kafka.position tp consumer.
Proof.
  induction partitions as [|tp partitions IH]; simpl.
  - intros Hin. by apply elem_of_nil in Hin.
  - intros Hin. case_bool_decide as Htp.
    + exists tp. split; [apply list_elem_of_here|done].
    + apply elem_of_cons in Hin as [Heq|Hin]; [done|].
      destruct (IH Hin) as (tp' & Hin' & Hp & Hloop).
      exists tp'. split; [by apply list_elem_of_further|done].
Qed.

(** C5.  [get_offset(p)] raises [KeyError] when no partition of the
    consumer's assignment ([_partitions]) has index [p]; when one has, it
    returns what the client reports as the position of that partition, so
    an integer offset whenever the client reports one. *)
Theorem get_offset_assigned_or_KeyError (self : Consumer.t K) (p : Z) :
  (p ∉ Kafka.partition <$> Consumer._partitions self →
     Consumer.get_offset self p
     = Raise (KeyError [Str "Can't find partition %d"; Int p]))
  ∧ (p ∈ Kafka.partition <$> Consumer._partitions self →
     ∃ tp, tp ∈ Consumer._partitions self ∧ Kafka.partition tp = p
           ∧ Consumer.get_offset self p = Kafka.position tp (Consumer._consumer self)
           ∧ ∀ offset : Z, Kafka.position tp (Consumer._consumer self) = Ok offset →
                           Consumer.get_offset self p = Ok offset).
Proof.
  split.
  - apply get_offset_loop_missing.
  - intros Hin.
    destruct (get_offset_loop_found _ (Consumer._consumer self) _ Hin)
      as (tp & Htp & Hp & Hloop).
    exists tp. repeat split; try done. intros offset Hoff.
    unfold Consumer.get_offset. by rewrite Hloop.
Qed.

(** What [__init__] stores in [_partitions]: the one partition asked for,
    or every partition of the topic. *)
Lemma init_partitions (location : string) (enable_ssl : bool)
    (cert_path topic group : string) (partition_id : option Z) (enable_sasl : bool)
    (sasl_username sasl_password : string) (c : Consumer.t K) :
  Consumer.__init__ location enable_ssl cert_path topic group partition_id
    enable_sasl sasl_username sasl_password = Ok c →
  Consumer._group c = group ∧ Consumer._topic c = topic
  ∧ match partition_id with
    | Some pid => Consumer._partitions c = [Kafka.mkTopicPartition topic pid]
    | None => ∀ tp, tp ∈ Consumer._partitions c → Kafka.topic tp = topic
    end.
Proof.
  unfold Consumer.__init__. intros Hc.
  apply bind_Ok in Hc as (configs & _ & Hc).
  apply bind_Ok in Hc as (consumer & _ & Hc).
  destruct partition_id as [pid|].
  - by injection Hc as <-.
  - destruct (Kafka.partitions_for_topic topic (Kafka.topics consumer)) as [pids|];
      [|done].
    injection Hc as <-. simpl. repeat split; try done.
    intros tp Htp. apply list_elem_of_fmap in Htp as (pid & -> & _). done.
Qed.

(** *** [close] *)

Context `{!Kafka.CommitModel K}.

(** C4, as the code has it.  [close] commits first.  When the commit
    succeeds the connection is released next and [close] returns: afterwards
    the connection is released and, for every partition the client had a
    position on, the committed offset is that position.  When the commit
    fails its exception leaves [close] at once and the release is not
    performed: the client stays as the failed commit left it, no more
    released than before, with the committed offsets it had. *)
Theorem close_commits_then_releases (self : Consumer.t K) :
  (∀ consumer : K, Kafka.commit (Consumer._consumer self) = (None, consumer) →
     Consumer.close self
     = (Ok (), Consumer.with_consumer self (Kafka.close consumer))
     ∧ Kafka.released (Consumer._consumer (Consumer.close self).2) = true
     ∧ ∀ (tp : Kafka.TopicPartition) (offset : Z),
         Kafka.position tp (Consumer._consumer self) = Ok offset →
         Kafka.committed tp (Consumer._consumer (Consumer.close self).2)
         = Some offset)
  ∧ (∀ (e : Exception) (consumer : K),
       Kafka.commit (Consumer._consumer self) = (Some e, consumer) →
       Consumer.close self = (Raise e, Consumer.with_consumer self consumer)
       ∧ Kafka.released (Consumer._consumer (Consumer.close self).2)
         = Kafka.released (Consumer._consumer self)
       ∧ ∀ tp : Kafka.TopicPartition,
           Kafka.committed tp (Consumer._consumer (Consumer.close self).2)
           = Kafka.committed tp (Consumer._consumer self)).
Proof.
  unfold Consumer.close. split.
  - intros consumer Hcommit. rewrite Hcommit. simpl.
    destruct (Kafka.commit_Ok _ _ Hcommit) as [_ Hcommitted].
    destruct (Kafka.close_released consumer) as [Hreleased Hkept].
    split; [done|]. split; [done|].
    intros tp offset Hposition. rewrite Hkept. by apply Hcommitted.
  - intros e consumer Hcommit. rewrite Hcommit. simpl.
    destruct (Kafka.commit_Raise _ _ _ Hcommit) as [Hreleased Hkept].
    done.
Qed.

End ConsumerOffsets.

(** The consumer is assigned partition 0 only: asking for partition 3 is a
    [KeyError], asking for partition 0 gives the offset 0. *)
Lemma get_offset_assigned_or_KeyError_witness :
  @Consumer.get_offset _ (Sim.consumer_api Scenario.cluster)
    (Scenario.db_consumer Scenario.cluster) 3
  = Raise (KeyError [Str "Can't find partition %d"; Int 3])
  ∧ ∃ tp, tp ∈ Consumer._partitions (Scenario.db_consumer Scenario.cluster)
          ∧ Kafka.partition tp = 0
          ∧ @Consumer.get_offset _ (Sim.consumer_api Scenario.cluster)
              (Scenario.db_consumer Scenario.cluster) 0 = Ok 0.
Proof.
  split.
  - apply (proj1 (@get_offset_assigned_or_KeyError _
                    (Sim.consumer_api Scenario.cluster)
                    (Scenario.db_consumer Scenario.cluster) 3)).
    vm_compute. intros Hin. inversion Hin as [|? ? ? Hnil]. inversion Hnil.
  - destruct (proj2 (@get_offset_assigned_or_KeyError _
                       (Sim.consumer_api Scenario.cluster)
                       (Scenario.db_consumer Scenario.cluster) 0))
      as (tp & Htp & Hp & Hget & Hoff).
    + vm_compute. apply list_elem_of_here.
    + exists tp. split; [exact Htp|]. split; [exact Hp|].
      apply Hoff. vm_compute in Htp. inversion Htp as [|? ? ? Hnil]; subst.
      * vm_compute. reflexivity.
      * inversion Hnil.
Defined.

(** A consumer that has taken two records of partition 0 and committed
    none: [close] commits the position 2 and releases the connection. *)
Lemma close_commits_then_releases_witness :
  let api := Sim.consumer_api Scenario.cluster in
  let tp := Kafka.mkTopicPartition "frontier-done" 0 in
  let self := Scenario.reading_consumer Scenario.cluster in
  Sim.sim_committed tp (Consumer._consumer self) = Some 0
  ∧ Sim.sim_position tp (Consumer._consumer self) = Ok 2
  ∧ @Consumer.close _ api self
    = (Ok (),
       Consumer.with_consumer self
         (Sim.mkClient ∅ [tp] [] [Scenario.record 2 "c"]
            [Scenario.record 0 "a"; Scenario.record 1 "b"]
            [Scenario.record 0 "a"; Scenario.record 1 "b"] true))
  ∧ Sim.released (Consumer._consumer (@Consumer.close _ api self).2) = true
  ∧ Sim.sim_committed tp (Consumer._consumer (@Consumer.close _ api self).2) = Some 2.
Proof.
  intros api tp self.
  destruct (proj1 (@close_commits_then_releases _ api
                     (Sim.commit_model Scenario.cluster) self)
              (Sim.mkClient ∅ [tp] [] [Scenario.record 2 "c"]
                 [Scenario.record 0 "a"; Scenario.record 1 "b"]
                 [Scenario.record 0 "a"; Scenario.record 1 "b"] false))
    as (Hclose & Hreleased & Hcommitted).
  { vm_compute. reflexivity. }
  split; [vm_compute; reflexivity|]. split; [vm_compute; reflexivity|].
  split; [exact Hclose|]. split; [exact Hreleased|].
  apply (Hcommitted tp 2). vm_compute. reflexivity.
Defined.

(** C4 as stated fails: when the commit is rejected, [close] raises the
    commit's error and the connection is still not released afterwards. *)
Lemma close_failed_commit_keeps_connection :
  let api := Sim.consumer_api Scenario.failing_cluster in
  let self := Scenario.db_consumer Scenario.failing_cluster in
  (@Consumer.close _ api self).1 = Raise (KafkaError "CommitFailedError")
  ∧ Sim.released (Consumer._consumer (@Consumer.close _ api self).2) = false
  ∧ ¬ (∃ consumer, Consumer._consumer (@Consumer.close _ api self).2
                   = Sim.sim_close consumer).
Proof.
  split; [by vm_compute|]. split; [by vm_compute|].
  intros [consumer Hc]. apply (f_equal Sim.released) in Hc.
  vm_compute in Hc. discriminate Hc.
Qed.

(** ** The facades *)

Section Facades.
Context {K : Type} `{!Kafka.ConsumerApi K} `{!Kafka.ProducerApi}.

(** C7.  [StatsLogStream] is [ScoringLogStream] with another topic and
    group: built from a message bus, it is the scoring-log facade of the bus
    whose scoring topic and group are the stats topic and the stats-reader
    group, and its [consumer] and [producer] are the ones of
    [ScoringLogStream] on that facade: a subscribing [Consumer] of the
    stats topic in the stats-reader group and a [SimpleProducer] on the
    stats topic, every other argument as for the scoring log. *)
Theorem stats_log_is_scoring_log_reconfigured (messagebus : MessageBus) :
  stats_log messagebus = scoring_log (with_stats_as_scoring messagebus)
  ∧ StatsLogStream.consumer (stats_log messagebus)
    = ScoringLogStream.consumer (scoring_log (with_stats_as_scoring messagebus))
  ∧ StatsLogStream.producer (stats_log messagebus)
    = ScoringLogStream.producer (scoring_log (with_stats_as_scoring messagebus))
  ∧ StatsLogStream.consumer (stats_log messagebus)
    = Consumer.__init__ (kafka_location messagebus) (enable_ssl messagebus)
        (cert_path messagebus) (topic_stats messagebus)
        (statslog_reader_group messagebus) None (enable_sasl messagebus)
        (sasl_username messagebus) (sasl_password messagebus)
  ∧ ScoringLogStream.consumer (scoring_log messagebus)
    = Consumer.__init__ (kafka_location messagebus) (enable_ssl messagebus)
        (cert_path messagebus) (topic_scoring messagebus)
        (scoringlog_dbw_group messagebus) None (enable_sasl messagebus)
        (sasl_username messagebus) (sasl_password messagebus)
  ∧ StatsLogStream.producer (stats_log messagebus)
    = SimpleProducer.__init__ (kafka_location messagebus) (enable_ssl messagebus)
        (cert_path messagebus) (topic_stats messagebus) (codec messagebus)
        (enable_sasl messagebus) (sasl_username messagebus)
        (sasl_password messagebus) (producer_kwargs (kafka_max_block_ms messagebus))
  ∧ ScoringLogStream.producer (scoring_log messagebus)
    = SimpleProducer.__init__ (kafka_location messagebus) (enable_ssl messagebus)
        (cert_path messagebus) (topic_scoring messagebus) (codec messagebus)
        (enable_sasl messagebus) (sasl_username messagebus)
        (sasl_password messagebus) (producer_kwargs (kafka_max_block_ms messagebus)).
Proof. repeat split. Qed.

(** Only the bytes [b'sw'] compare equal to [b'sw']. *)
Lemma eq_bytes_sw (type : Value) : Py.eq type (Bytes "sw") = true ↔ type = Bytes "sw".
Proof.
  destruct type; apply bool_decide_eq_true.
Qed.

(** C9.  [SpiderLogStream.consumer(partition_id, type)] takes the
    strategy-worker group exactly when [type] is the byte string [b'sw'];
    for any other value, the text ['sw'] included, it takes the DB-writer
    group.  The group taken is the group of the consumer it returns, and a
    [type] other than [b'sw'] gives the same outcome as ['db']. *)
Theorem spider_log_consumer_group_by_type (self : SpiderLogStream.t)
    (partition_id : option Z) (type : Value) :
  (type = Bytes "sw" →
     SpiderLogStream.consumer_group self type = SpiderLogStream._sw_group self)
  ∧ (type ≠ Bytes "sw" →
     SpiderLogStream.consumer_group self type = SpiderLogStream._db_group self
     ∧ SpiderLogStream.consumer self partition_id type
       = SpiderLogStream.consumer self partition_id (Str "db"))
  ∧ SpiderLogStream.consumer_group self (Str "sw") = SpiderLogStream._db_group self
  ∧ (∀ c : Consumer.t K, SpiderLogStream.consumer self partition_id type = Ok c →
       Consumer._group c = if decide (type = Bytes "sw")
                           then SpiderLogStream._sw_group self
                           else SpiderLogStream._db_group self).
Proof.
  assert (Hne : type ≠ Bytes "sw" →
                SpiderLogStream.consumer_group self type = SpiderLogStream._db_group self).
  { intros Hne. unfold SpiderLogStream.consumer_group.
    destruct (Py.eq type (Bytes "sw")) eqn:Heq; [|done].
    by apply eq_bytes_sw in Heq. }
  assert (Hsw : type = Bytes "sw" →
                SpiderLogStream.consumer_group self type = SpiderLogStream._sw_group self).
  { by intros ->. }
  split; [exact Hsw|]. split; [|split; [done|]].
  - intros Htype. split; [by apply Hne|].
    unfold SpiderLogStream.consumer. simpl. by rewrite (Hne Htype).
  - intros c Hc. unfold SpiderLogStream.consumer in Hc. simpl in Hc.
    apply bind_Ok in Hc as (c0 & Hinit & Hassert).
    apply assert_partitions_Ok in Hassert as [-> _].
    apply init_partitions in Hinit as (-> & _).
    destruct (decide (type = Bytes "sw")) as [Heq|Heq]; [by apply Hsw|by apply Hne].
Qed.

End Facades.

(** On the spider log, whose topic has the configured single partition:
    ['sw'] as text yields a consumer of the DB-writer group, [b'sw'] one of
    the strategy-worker group. *)
Lemma spider_log_consumer_group_by_type_witness :
  (∃ c, @SpiderLogStream.consumer _ (Sim.consumer_api Scenario.cluster)
          (spider_log Scenario.bus) None (Str "sw") = Ok c
        ∧ Consumer._group c = "dbw-spider-log")
  ∧ (∃ c, @SpiderLogStream.consumer _ (Sim.consumer_api Scenario.cluster)
            (spider_log Scenario.bus) None (Bytes "sw") = Ok c
          ∧ Consumer._group c = "sw-spider-log")
  ∧ SpiderLogStream.consumer_group (spider_log Scenario.bus) (Bytes "sw")
    = "sw-spider-log"
  ∧ SpiderLogStream.consumer_group (spider_log Scenario.bus) (Int 7)
    = "dbw-spider-log".
Proof.
  split; [|split; [|split]].
  - eexists. split; [vm_compute; reflexivity|].
    refine (proj2 (proj2 (proj2 (@spider_log_consumer_group_by_type _
              (Sim.consumer_api Scenario.cluster) (spider_log Scenario.bus)
              None (Str "sw")))) _ _).
    vm_compute. reflexivity.
  - eexists. split; [vm_compute; reflexivity|].
    refine (proj2 (proj2 (proj2 (@spider_log_consumer_group_by_type _
              (Sim.consumer_api Scenario.cluster) (spider_log Scenario.bus)
              None (Bytes "sw")))) _ _).
    vm_compute. reflexivity.
  - apply (proj1 (@spider_log_consumer_group_by_type _
              (Sim.consumer_api Scenario.cluster) (spider_log Scenario.bus)
              None (Bytes "sw"))). reflexivity.
  - apply (proj1 (proj2 (@spider_log_consumer_group_by_type _
              (Sim.consumer_api Scenario.cluster) (spider_log Scenario.bus)
              None (Int 7)))). discriminate.
Defined.

(** The scenario of the design document: with a limit of 5, partition 2 is
    withheld while its lag is 10 and comes back once its lag is 3. *)
Example available_partitions_scenario :
  (2 ∉ @SpiderFeedStream.available_partitions _ (Sim.fetcher_api {[ 2 := 10 ]})
         (Scenario.feed {[ 2 := 10 ]}))
  ∧ @SpiderFeedStream.available_partitions _ (Sim.fetcher_api {[ 2 := 3 ]})
      (Scenario.feed {[ 2 := 3 ]}) = [2].
Proof.
  split.
  - vm_compute. intros Hin. inversion Hin.
  - vm_compute. reflexivity.
Qed.

(** * Further properties of the code *)

(** ** The configuration of the consumer's client *)

Section ConsumerConfiguration.
Context {K : Type} `{!Kafka.ConsumerApi K}.

(** What [consumer_configs] returns, key by key. *)
Lemma consumer_configs_lookup (location : string) (enable_ssl : bool)
    (cert_path topic group : string) (partition_id : option Z) (enable_sasl : bool)
    (sasl_username sasl_password : string) :
  ∃ configs,
    Consumer.consumer_configs location enable_ssl cert_path topic group
      partition_id enable_sasl sasl_username sasl_password = Ok configs
    ∧ configs !! "bootstrap_servers" = Some (Str location)
    ∧ configs !! "group_id" = Some (Str group)
    ∧ configs !! "client_id" = Some (Str (client_id_of topic partition_id))
    ∧ configs !! "security_protocol"
      = (if enable_ssl then Some (Str "SSL")
         else if enable_sasl then Some (Str "SASL_SSL") else None)
    ∧ (configs !! "ssl_cafile", configs !! "ssl_certfile", configs !! "ssl_keyfile")
      = (if enable_ssl
         then (Some (Str (os_path_join cert_path "ca-cert.pem")),
               Some (Str (os_path_join cert_path "client-cert.pem")),
               Some (Str (os_path_join cert_path "client-key.pem")))
         else (None, None, None))
    ∧ (configs !! "sasl_mechanism", configs !! "sasl_plain_username",
       configs !! "sasl_plain_password")
      = (if negb enable_ssl && enable_sasl
         then (Some (Str "SCRAM-SHA-512"), Some (Str sasl_username),
               Some (Str sasl_password))
         else (None, None, None)).
Proof.
  unfold Consumer.consumer_configs, client_id_of.
  generalize (topic +:+ "-" +:+ match partition_id with
                                | Some pid => pretty pid
                                | None => "all"
                                end).
  intros cid.
  destruct enable_ssl; [|destruct enable_sasl];
    (eexists; split; [apply call_kwargs_Ok; vm_compute; reflexivity|];
     repeat split; vm_compute; reflexivity).
Qed.

(** X1.  The client of a consumer is configured with exactly one security
    variant: with [enable_ssl] the protocol is SSL with the three certificate
    files of [cert_path] and no SASL setting, even when [enable_sasl] is set
    too; with [enable_sasl] alone it is SASL_SSL with SCRAM-SHA-512 and the
    credentials and no certificate file; with neither there is no security
    setting at all.  The configuration carries the location and the group,
    and an exception of the [KafkaConsumer] constructor on it is the outcome
    of [__init__]. *)
Theorem consumer_security_selection (location : string) (enable_ssl : bool)
    (cert_path topic group : string) (partition_id : option Z) (enable_sasl : bool)
    (sasl_username sasl_password : string) :
  ∃ configs,
    Consumer.consumer_configs location enable_ssl cert_path topic group
      partition_id enable_sasl sasl_username sasl_password = Ok configs
    ∧ configs !! "bootstrap_servers" = Some (Str location)
    ∧ configs !! "group_id" = Some (Str group)
    ∧ configs !! "security_protocol"
      = (if enable_ssl then Some (Str "SSL")
         else if enable_sasl then Some (Str "SASL_SSL") else None)
    ∧ (configs !! "ssl_cafile", configs !! "ssl_certfile", configs !! "ssl_keyfile")
      = (if enable_ssl
         then (Some (Str (os_path_join cert_path "ca-cert.pem")),
               Some (Str (os_path_join cert_path "client-cert.pem")),
               Some (Str (os_path_join cert_path "client-key.pem")))
         else (None, None, None))
    ∧ (configs !! "sasl_mechanism", configs !! "sasl_plain_username",
       configs !! "sasl_plain_password")
      = (if negb enable_ssl && enable_sasl
         then (Some (Str "SCRAM-SHA-512"), Some (Str sasl_username),
               Some (Str sasl_password))
         else (None, None, None))
    ∧ ∀ e : Exception, Kafka.KafkaConsumer configs = Raise e →
        Consumer.__init__ (K := K) location enable_ssl cert_path topic group
          partition_id enable_sasl sasl_username sasl_password = Raise e.
Proof.
  destruct (consumer_configs_lookup location enable_ssl cert_path topic group
              partition_id enable_sasl sasl_username sasl_password)
    as (configs & Hcfg & Hloc & Hgroup & _ & Hproto & Hssl & Hsasl).
  exists configs. repeat (split; [assumption|]).
  intros e He. unfold Consumer.__init__. rewrite Hcfg. simpl. by rewrite He.
Qed.

(** No decimal numeral starts with the letter [a]. *)
Lemma pretty_N_go_ne_a (x : N) (s s' : string) :
  s ≠ "a" +:+ s' → pretty_N_go x s ≠ "a" +:+ s'.
Proof.
  revert s. induction (N.lt_wf_0 x) as [x _ IH]; intros s ?.
  assert (x = 0 ∨ 0 < x)%N as [->|?] by lia.
  - by rewrite pretty_N_go_0.
  - rewrite pretty_N_go_step by done. apply IH.
    { by apply N.div_lt. }
    unfold pretty_N_char. by repeat case_match.
Qed.

Lemma pretty_Z_ne_all (z : Z) : pretty z ≠ "all".
Proof.
  destruct z as [|p|p]; [done| |done].
  unfold pretty, pretty_Z, pretty, pretty_positive, pretty, pretty_N.
  rewrite decide_False by done. by apply (pretty_N_go_ne_a _ "" "ll").
Qed.

Lemma client_id_of_inj (topic : string) (p q : option Z) :
  client_id_of topic p = client_id_of topic q → p = q.
Proof.
  unfold client_id_of. intros Heq.
  apply (inj (String.append topic)) in Heq.
  apply (inj (String.append "-")) in Heq.
  destruct p as [p|], q as [q|]; try done.
  - f_equal. by apply (inj pretty).
  - by apply pretty_Z_ne_all in Heq.
  - symmetry in Heq. by apply pretty_Z_ne_all in Heq.
Qed.

(** X2.  On one topic the client id tells the consumers apart: two
    consumers configured for different partitions, or one for a partition and
    one subscribing to the whole topic, never get the same [client_id],
    whatever their other arguments are. *)
Theorem client_id_distinct (topic : string) (p q : option Z)
    (location location' : string) (enable_ssl enable_ssl' : bool)
    (cert_path cert_path' group group' : string) (enable_sasl enable_sasl' : bool)
    (user user' password password' : string) (configs configs' : Kwargs) :
  p ≠ q →
  Consumer.consumer_configs location enable_ssl cert_path topic group p
    enable_sasl user password = Ok configs →
  Consumer.consumer_configs location' enable_ssl' cert_path' topic group' q
    enable_sasl' user' password' = Ok configs' →
  is_Some (configs !! "client_id")
  ∧ is_Some (configs' !! "client_id")
  ∧ configs !! "client_id" ≠ configs' !! "client_id".
Proof.
  intros Hpq Hcfg Hcfg'.
  destruct (consumer_configs_lookup location enable_ssl cert_path topic group p
              enable_sasl user password) as (c & Hc & _ & _ & Hid & _).
  destruct (consumer_configs_lookup location' enable_ssl' cert_path' topic group' q
              enable_sasl' user' password') as (c' & Hc' & _ & _ & Hid' & _).
  rewrite Hcfg in Hc. rewrite Hcfg' in Hc'. simplify_eq.
  rewrite Hid, Hid'. split; [by eexists|]. split; [by eexists|].
  intros [= Heq]. by apply client_id_of_inj in Heq.
Qed.

End ConsumerConfiguration.

(** On an unreachable cluster the constructor's error is what [__init__]
    raises. *)
Lemma consumer_security_selection_witness :
  @Consumer.__init__ _ Unreachable.consumer_api "localhost:9092" true "/etc/certs"
    "frontier-done" "dbw-spider-log" None true "crawler" "secret"
  = Raise (KafkaError "NoBrokersAvailable").
Proof.
  destruct (@consumer_security_selection _ Unreachable.consumer_api
              "localhost:9092" true "/etc/certs" "frontier-done" "dbw-spider-log"
              None true "crawler" "secret")
    as (configs & _ & _ & _ & _ & _ & _ & Hraise).
  apply Hraise. reflexivity.
Defined.

(** Partition 0 of the spider feed and the subscriber to the whole topic. *)
Lemma client_id_distinct_witness :
  ∃ configs configs',
    @Consumer.consumer_configs _ (Sim.consumer_api Scenario.cluster)
      "localhost:9092" false "" "frontier-todo"
      "fetchers-spider-feed" (Some 0) false "" "" = Ok configs
    ∧ @Consumer.consumer_configs _ (Sim.consumer_api Scenario.cluster)
        "localhost:9092" false "" "frontier-todo"
        "fetchers-spider-feed" None false "" "" = Ok configs'
    ∧ configs !! "client_id" ≠ configs' !! "client_id".
Proof.
  destruct (@consumer_configs_lookup _ (Sim.consumer_api Scenario.cluster)
              "localhost:9092" false "" "frontier-todo"
              "fetchers-spider-feed" (Some 0) false "" "") as (configs & Hcfg & _).
  destruct (@consumer_configs_lookup _ (Sim.consumer_api Scenario.cluster)
              "localhost:9092" false "" "frontier-todo"
              "fetchers-spider-feed" None false "" "") as (configs' & Hcfg' & _).
  exists configs, configs'. split; [exact Hcfg|]. split; [exact Hcfg'|].
  refine (proj2 (proj2 (@client_id_distinct _ (Sim.consumer_api Scenario.cluster)
            "frontier-todo" (Some 0) None
            "localhost:9092" "localhost:9092" false false "" ""
            "fetchers-spider-feed" "fetchers-spider-feed" false false "" "" "" ""
            configs configs' _ Hcfg Hcfg'))).
  discriminate.
Defined.

(** ** Building a consumer and asking it for offsets *)

Section ConsumerConstruction.
Context {K : Type} `{!Kafka.ConsumerApi K}.

(** X3.  A consumer built for one partition [pid] records exactly that
    partition: its client was assigned the partition (not subscribed),
    [get_offset(pid)] is the client's position on it, and [get_offset] of any
    other partition raises [KeyError]. *)
Theorem static_consumer_offsets (location : string) (enable_ssl : bool)
    (cert_path topic group : string) (pid : Z) (enable_sasl : bool)
    (sasl_username sasl_password : string) (c : Consumer.t K) :
  Consumer.__init__ location enable_ssl cert_path topic group (Some pid)
    enable_sasl sasl_username sasl_password = Ok c →
  Consumer._partitions c = [Kafka.mkTopicPartition topic pid]
  ∧ (∃ k, Consumer._consumer c
          = Kafka.assign [Kafka.mkTopicPartition topic pid] (Kafka.topics k))
  ∧ Consumer.get_offset c pid
    = Kafka.position (Kafka.mkTopicPartition topic pid) (Consumer._consumer c)
  ∧ ∀ q : Z, q ≠ pid →
      Consumer.get_offset c q = Raise (KeyError [Str "Can't find partition %d"; Int q]).
Proof.
  unfold Consumer.__init__. intros Hc.
  apply bind_Ok in Hc as (configs & _ & Hc).
  apply bind_Ok in Hc as (k & _ & Hc).
  injection Hc as <-. simpl. split; [done|]. split; [by exists k|]. split.
  - unfold Consumer.get_offset. simpl. by rewrite bool_decide_eq_true_2.
  - intros q Hq. unfold Consumer.get_offset. simpl.
    by rewrite bool_decide_eq_false_2.
Qed.

(** X4.  A consumer built without a partition subscribes to the topic and
    records one [TopicPartition] per partition id the client listed for the
    topic at that moment: [get_offset(p)] is the client's position for a
    listed [p] and a [KeyError] for any other. *)
Theorem subscribed_consumer_offsets (location : string) (enable_ssl : bool)
    (cert_path topic group : string) (enable_sasl : bool)
    (sasl_username sasl_password : string) (c : Consumer.t K) :
  Consumer.__init__ location enable_ssl cert_path topic group None
    enable_sasl sasl_username sasl_password = Ok c →
  ∃ (k : K) (pids : list Z),
    Kafka.partitions_for_topic topic (Kafka.topics k) = Some pids
    ∧ Consumer._consumer c = Kafka.subscribe [topic] (Kafka.topics k)
    ∧ Consumer._partitions c = Kafka.mkTopicPartition topic <$> pids
    ∧ ∀ p : Z,
        (p ∈ pids →
           Consumer.get_offset c p
           = Kafka.position (Kafka.mkTopicPartition topic p) (Consumer._consumer c))
        ∧ (p ∉ pids →
           Consumer.get_offset c p
           = Raise (KeyError [Str "Can't find partition %d"; Int p])).
Proof.
  unfold Consumer.__init__. intros Hc.
  apply bind_Ok in Hc as (configs & _ & Hc).
  apply bind_Ok in Hc as (k & _ & Hc).
  destruct (Kafka.partitions_for_topic topic (Kafka.topics k)) as [pids|] eqn:Hpids;
    [|done].
  injection Hc as <-. exists k, pids. simpl. repeat split; try done.
  - intros Hp. unfold Consumer.get_offset. simpl.
    destruct (get_offset_loop_found (Kafka.mkTopicPartition topic <$> pids)
                (Kafka.subscribe [topic] (Kafka.topics k)) p)
      as (tp & Htp & Hidx & Hloop).
    { rewrite <- list_fmap_compose. simpl.
      apply list_elem_of_fmap. by exists p. }
    apply list_elem_of_fmap in Htp as (p' & -> & _). simpl in Hidx. by subst p'.
  - intros Hp. apply get_offset_loop_missing. simpl.
    rewrite <- list_fmap_compose. intros Hin.
    apply list_elem_of_fmap in Hin as (p' & -> & Hp'). done.
Qed.

(** X5.  A topic the cluster does not know is reported as a [TypeError],
    never as a partition-count mismatch: with the client constructed, the
    spider-log and the spider-feed facade raise it from the iteration over
    the partitions when subscribing and from [len] in their assertion when a
    partition is given, and the scoring-log facade raises it from the
    iteration. *)
Theorem unknown_topic_is_TypeError (topic : string) :
  (∀ configs, ∃ k, Kafka.KafkaConsumer configs = Ok k) →
  (∀ k, Kafka.partitions_for_topic topic k = None) →
  let error (partition_id : option Z) : Result (Consumer.t K) :=
    Raise (TypeError match partition_id with
                     | Some _ => "object of type 'NoneType' has no len()"
                     | None => "'NoneType' object is not iterable"
                     end) in
  (∀ (self : SpiderLogStream.t) (partition_id : option Z) (type : Value),
     SpiderLogStream._topic self = topic →
     SpiderLogStream.consumer self partition_id type = error partition_id)
  ∧ (∀ (F : Type) (self : SpiderFeedStream.t F) (partition_id : option Z),
       SpiderFeedStream._topic self = topic →
       SpiderFeedStream.consumer self partition_id = error partition_id)
  ∧ (∀ self : ScoringLogStream.t,
       ScoringLogStream._topic self = topic →
       ScoringLogStream.consumer self = error None).
Proof.
  intros Hnew Hunknown error.
  assert (Hinit : ∀ location ssl cert group partition_id sasl user password,
            match partition_id with
            | Some pid =>
                ∃ c, Consumer.__init__ location ssl cert topic group (Some pid)
                       sasl user password = Ok c
            | None =>
                Consumer.__init__ location ssl cert topic group None
                  sasl user password = error None
            end).
  { intros location ssl cert group partition_id sasl user password.
    destruct (consumer_configs_lookup location ssl cert topic group partition_id
                sasl user password) as (configs & Hcfg & _).
    destruct (Hnew configs) as [k Hk].
    unfold Consumer.__init__.
    destruct partition_id as [pid|]; rewrite Hcfg; simpl; rewrite Hk; simpl.
    - by eexists.
    - by rewrite Hunknown. }
  split; [|split].
  - intros self partition_id type <-. unfold SpiderLogStream.consumer. simpl.
    specialize (Hinit (SpiderLogStream._location self)
                  (SpiderLogStream._enable_ssl self) (SpiderLogStream._cert_path self)
                  (SpiderLogStream.consumer_group self type) partition_id
                  (SpiderLogStream._enable_sasl self)
                  (SpiderLogStream._sasl_username self)
                  (SpiderLogStream._sasl_password self)).
    destruct partition_id as [pid|].
    + destruct Hinit as [c ->]. simpl. unfold assert_partitions.
      by rewrite Hunknown.
    + by rewrite Hinit.
  - intros F self partition_id <-. unfold SpiderFeedStream.consumer.
    specialize (Hinit (SpiderFeedStream._location self)
                  (SpiderFeedStream._enable_ssl self) (SpiderFeedStream._cert_path self)
                  (SpiderFeedStream._general_group self) partition_id
                  (SpiderFeedStream._enable_sasl self)
                  (SpiderFeedStream._sasl_username self)
                  (SpiderFeedStream._sasl_password self)).
    destruct partition_id as [pid|].
    + destruct Hinit as [c ->]. simpl. unfold assert_partitions.
      by rewrite Hunknown.
    + by rewrite Hinit.
  - intros self <-. unfold ScoringLogStream.consumer.
    apply (Hinit (ScoringLogStream._location self) (ScoringLogStream._enable_ssl self)
             (ScoringLogStream._cert_path self) (ScoringLogStream._group self) None).
Qed.

End ConsumerConstruction.

(** The DB writer's consumer of partition 0 of the spider log. *)
Lemma static_consumer_offsets_witness :
  ∃ c, @Consumer.__init__ _ (Sim.consumer_api Scenario.cluster) "localhost:9092"
         false "" "frontier-done" "dbw-spider-log" (Some 0) false "" "" = Ok c
       ∧ Consumer._partitions c = [Kafka.mkTopicPartition "frontier-done" 0]
       ∧ @Consumer.get_offset _ (Sim.consumer_api Scenario.cluster) c 3
         = Raise (KeyError [Str "Can't find partition %d"; Int 3]).
Proof.
  destruct (@Consumer.__init__ _ (Sim.consumer_api Scenario.cluster) "localhost:9092"
              false "" "frontier-done" "dbw-spider-log" (Some 0) false "" "")
    as [c|e] eqn:Hc; [|vm_compute in Hc; discriminate Hc].
  exists c. split; [reflexivity|].
  destruct (@static_consumer_offsets _ (Sim.consumer_api Scenario.cluster) _ _ _ _ _ _
              _ _ _ c Hc) as (Hparts & _ & _ & Hother).
  split; [exact Hparts|]. apply Hother. discriminate.
Defined.

(** A subscriber to the spider feed, whose topic has partitions 0 to 3. *)
Lemma subscribed_consumer_offsets_witness :
  ∃ c, @Consumer.__init__ _ (Sim.consumer_api Scenario.cluster) "localhost:9092"
         false "" "frontier-todo" "fetchers-spider-feed" None false "" "" = Ok c
       ∧ length (Consumer._partitions c) = 4%nat
       ∧ @Consumer.get_offset _ (Sim.consumer_api Scenario.cluster) c 4
         = Raise (KeyError [Str "Can't find partition %d"; Int 4]).
Proof.
  destruct (@Consumer.__init__ _ (Sim.consumer_api Scenario.cluster) "localhost:9092"
              false "" "frontier-todo" "fetchers-spider-feed" None false "" "")
    as [c|e] eqn:Hc; [|vm_compute in Hc; discriminate Hc].
  exists c. split; [reflexivity|].
  destruct (@subscribed_consumer_offsets _ (Sim.consumer_api Scenario.cluster) _ _ _ _
              _ _ _ _ c Hc) as (k & pids & Hpids & _ & Hparts & Hoff).
  vm_compute in Hpids. injection Hpids as <-.
  split; [by rewrite Hparts|]. apply Hoff.
  intros Hin. repeat (apply elem_of_cons in Hin as [Hin|Hin]; [discriminate Hin|]).
  by apply elem_of_nil in Hin.
Defined.

(** On a cluster without topics, the spider log reports the missing topic
    as a [TypeError] for a static consumer. *)
Lemma unknown_topic_is_TypeError_witness :
  @SpiderLogStream.consumer _ (Sim.consumer_api empty_cluster)
    (spider_log Scenario.bus) (Some 0) (Str "db")
  = Raise (TypeError "object of type 'NoneType' has no len()").
Proof.
  refine (proj1 (@unknown_topic_is_TypeError _ (Sim.consumer_api empty_cluster)
                   "frontier-done" _ _) (spider_log Scenario.bus) (Some 0) (Str "db")
            eq_refl).
  - intros configs. eexists. reflexivity.
  - intros k. reflexivity.
Defined.

(** ** Batches of [get_messages] *)

Section Batches.
Context {K : Type} `{!Kafka.ConsumerApi K}.

(** [pull] stops short of [n] only on a timeout of the client. *)
Lemma pull_short_timeout (n : nat) (consumer : K) :
  (length (pull n consumer).1 < n)%nat →
  ∃ k, Kafka.next k = (None, (pull n consumer).2).
Proof.
  revert consumer. induction n as [|n IH]; intros consumer; simpl; [lia|].
  destruct (Kafka.next consumer) as [[m|] consumer'] eqn:Hnext; simpl.
  - specialize (IH consumer'). destruct (pull n consumer') as [batch consumer''].
    simpl in *. intros Hlen. apply IH. lia.
  - intros _. by exists consumer.
Qed.

(** A full batch of [n] followed by a batch of [m] is a batch of [n + m]. *)
Lemma pull_full_app (n m : nat) (consumer : K) :
  length (pull n consumer).1 = n →
  pull (n + m) consumer
  = (((pull n consumer).1 ++ (pull m (pull n consumer).2).1)%list,
     (pull m (pull n consumer).2).2).
Proof.
  revert consumer. induction n as [|n IH]; intros consumer; simpl.
  - intros _. by destruct (pull m consumer).
  - destruct (Kafka.next consumer) as [[msg|] consumer']; simpl; [|done].
    specialize (IH consumer'). destruct (pull n consumer') as [batch consumer''].
    simpl in *. intros [= Hlen]. rewrite (IH Hlen). done.
Qed.

Lemma with_consumer_id (self : Consumer.t K) :
  Consumer.with_consumer self (Consumer._consumer self) = self.
Proof. by destruct self. Qed.

(** X6.  [get_messages] comes back with fewer than [count] messages only
    because the client timed out: a batch shorter than [count] means the
    last [next] raised [StopIteration], and the consumer is left in the
    state of that call.  With [count <= 0] the client is not asked at all:
    the batch is empty and the consumer untouched. *)
Theorem get_messages_short_only_on_timeout (self : Consumer.t K) (timeout : Q)
    (count : Z) :
  ((count ≤ 0)%Z → Consumer.get_messages self timeout count = Some ([], self))
  ∧ ∀ (batch : list string) (self' : Consumer.t K),
      Consumer.get_messages self timeout count = Some (batch, self') →
      (Z.of_nat (length batch) < count)%Z →
      ∃ k, Kafka.next k = (None, Consumer._consumer self').
Proof.
  rewrite get_messages_total. split.
  - intros Hcount. replace (Z.to_nat count) with 0%nat by lia. simpl.
    by rewrite with_consumer_id.
  - intros batch self' [= <- <-] Hlen. simpl. apply pull_short_timeout. lia.
Qed.

(** X7.  Batches compose: when a call for [n] messages returned all [n],
    the batch of a following call for [m] messages continues it, and the two
    together are what a single call for [n + m] returns, with the same
    consumer state afterwards. *)
Theorem get_messages_compose (self self1 self2 : Consumer.t K) (t1 t2 t3 : Q)
    (n m : Z) (batch1 batch2 : list string) :
  (0 ≤ n)%Z → (0 ≤ m)%Z →
  Consumer.get_messages self t1 n = Some (batch1, self1) →
  Z.of_nat (length batch1) = n →
  Consumer.get_messages self1 t2 m = Some (batch2, self2) →
  Consumer.get_messages self t3 (n + m) = Some ((batch1 ++ batch2)%list, self2).
Proof.
  intros Hn Hm. rewrite !get_messages_total.
  intros [= <- <-] Hlen [= <- <-]. simpl.
  rewrite Z2Nat.inj_add by done. rewrite pull_full_app by lia. done.
Qed.

End Batches.

(** The three waiting records: two, then one. *)
Lemma get_messages_compose_witness :
  ∃ self1 self2,
    @Consumer.get_messages _ (Sim.consumer_api Scenario.cluster)
      (Scenario.db_consumer Scenario.cluster) (1 # 10) 2 = Some (["a"; "b"], self1)
    ∧ @Consumer.get_messages _ (Sim.consumer_api Scenario.cluster)
        self1 (1 # 10) 1 = Some (["c"], self2)
    ∧ @Consumer.get_messages _ (Sim.consumer_api Scenario.cluster)
        (Scenario.db_consumer Scenario.cluster) (1 # 2) (2 + 1)
      = Some (["a"; "b"; "c"], self2).
Proof.
  eexists _, _. split; [vm_compute; reflexivity|]. split; [vm_compute; reflexivity|].
  eapply (@get_messages_compose _ (Sim.consumer_api Scenario.cluster)
            _ _ _ (1 # 10) (1 # 10) (1 # 2) 2 1 ["a"; "b"] ["c"]);
    [lia|lia|vm_compute; reflexivity|reflexivity|vm_compute; reflexivity].
Defined.

(** Asked for five messages when three are waiting, the consumer returns
    the three after a timeout. *)
Lemma get_messages_short_only_on_timeout_witness :
  ∃ batch self',
    @Consumer.get_messages _ (Sim.consumer_api Scenario.cluster)
      (Scenario.db_consumer Scenario.cluster) (1 # 10) 5 = Some (batch, self')
    ∧ batch = ["a"; "b"; "c"]
    ∧ ∃ k, Sim.sim_next k = (None, Consumer._consumer self').
Proof.
  eexists _, _. split; [vm_compute; reflexivity|]. split; [reflexivity|].
  apply (proj2 (@get_messages_short_only_on_timeout _
                  (Sim.consumer_api Scenario.cluster)
                  (Scenario.db_consumer Scenario.cluster) (1 # 10) 5)
           ["a"; "b"; "c"]);
    [vm_compute; reflexivity|simpl; lia].
Defined.

(** ** Building a producer: the keywords of the client *)

#[local] Set Warnings "-clear-no-such-hyp".

Section ProducerConstruction.
Context `{!Kafka.ProducerApi}.

(** A keyword given twice: the call raises the [TypeError] that names one of
    the keywords given twice. *)
Lemma call_kwargs_Raise (callee : string) (explicit kwargs : Kwargs) (key : string) :
  is_Some (explicit !! key) → is_Some (kwargs !! key) →
  ∃ key', is_Some (explicit !! key') ∧ is_Some (kwargs !! key')
          ∧ call_kwargs callee explicit kwargs
            = Raise (TypeError (multiple_values callee key')).
Proof.
  intros He Hk. unfold call_kwargs.
  destruct (elements (dom explicit ∩ dom kwargs : gset string)) as [|key' rest] eqn:Hel.
  - apply elements_empty_inv in Hel. apply leibniz_equiv in Hel.
    apply elem_of_dom in He, Hk. exfalso.
    apply (not_elem_of_empty (C := gset string) key). rewrite <- Hel.
    by apply elem_of_intersection.
  - assert (Hin : key' ∈ (dom explicit ∩ dom kwargs : gset string)).
    { apply elem_of_elements. rewrite Hel. apply list_elem_of_here. }
    apply elem_of_intersection in Hin as [Hin1 Hin2].
    exists key'. by rewrite <- !elem_of_dom.
Qed.

Lemma security_kwargs_keys (enable_ssl : bool) (cert_path : string)
    (enable_sasl : bool) (user password key : string) :
  is_Some (security_kwargs enable_ssl cert_path enable_sasl user password !! key) →
  key ∈ ({[ "security_protocol"; "ssl_cafile"; "ssl_certfile"; "ssl_keyfile";
            "sasl_mechanism"; "sasl_plain_username"; "sasl_plain_password" ]}
         : gset string).
Proof.
  unfold security_kwargs, _prepare_kafka_ssl_kwargs, _prepare_kafka_sasl_kwargs.
  intros Hkey. apply elem_of_dom in Hkey.
  destruct enable_ssl; [|destruct enable_sasl];
    rewrite ?dom_insert_L, ?dom_singleton_L, ?dom_empty_L in Hkey;
    set_unfold; naive_solver.
Qed.

Lemma security_kwargs_None (enable_ssl : bool) (cert_path : string)
    (enable_sasl : bool) (user password key : string) :
  key ∈ ({[ "bootstrap_servers"; "partitioner"; "retries"; "compression_type";
            "max_request_size" ]} : gset string) →
  security_kwargs enable_ssl cert_path enable_sasl user password !! key = None.
Proof.
  intros Hkey.
  destruct (security_kwargs _ _ _ _ _ !! key) eqn:Hs; [|done].
  assert (Hk := security_kwargs_keys enable_ssl cert_path enable_sasl user password
                  key ltac:(by eexists)).
  set_unfold. naive_solver.
Qed.

(** The configuration both producers hand to [KafkaProducer]: the written
    keywords [explicit], none of which is a security keyword, and the
    caller's keywords with the security keywords over them. *)
Lemma producer_configs_lookup (callee : string) (explicit security kwargs : Kwargs) :
  (∀ key, is_Some (explicit !! key) → security !! key = None) →
  (∀ key, is_Some (explicit !! key) → kwargs !! key = None) →
  call_kwargs callee explicit (security ∪ kwargs)
  = Ok (explicit ∪ (security ∪ kwargs))
  ∧ (∀ key v, explicit !! key = Some v →
       (explicit ∪ (security ∪ kwargs)) !! key = Some v)
  ∧ (∀ key v, security !! key = Some v →
       (explicit ∪ (security ∪ kwargs)) !! key = Some v)
  ∧ (∀ key, explicit !! key = None → security !! key = None →
       (explicit ∪ (security ∪ kwargs)) !! key = kwargs !! key).
Proof.
  intros Hsec Hkw. split; [|split; [|split]].
  - apply call_kwargs_Ok, bool_decide_eq_true.
    apply set_eq. intros key. rewrite elem_of_intersection, dom_union_L, elem_of_union.
    rewrite !elem_of_dom. split; [|by intros ?%not_elem_of_empty].
    intros [He [Hs|Hk]].
    + rewrite (Hsec key He) in Hs. by destruct Hs.
    + rewrite (Hkw key He) in Hk. by destruct Hk.
  - intros key v He. by apply lookup_union_Some_l.
  - intros key v Hs. rewrite lookup_union_r.
    + by apply lookup_union_Some_l.
    + destruct (explicit !! key) eqn:He; [|done].
      rewrite Hsec in Hs by (by eexists). done.
  - intros key He Hs. by rewrite !lookup_union_r.
Qed.

Lemma keyed_explicit_keys (location : string) (partitioner : Partitioner)
    (compression max_request_size : Value) (key : string) :
  is_Some (({[ "bootstrap_servers" := Str location;
               "partitioner" := PartitionerObj partitioner;
               "retries" := Int 5;
               "compression_type" := compression;
               "max_request_size" := max_request_size ]} : Kwargs) !! key)
  ↔ key ∈ ({[ "bootstrap_servers"; "partitioner"; "retries"; "compression_type";
              "max_request_size" ]} : gset string).
Proof.
  rewrite <- elem_of_dom, !dom_insert_L, dom_singleton_L. set_solver.
Qed.

(** What a constructed [KafkaProducer] starts with. *)
Lemma KafkaProducer_Ok (configs : Kwargs) (producer : Kafka.Producer) :
  Kafka.KafkaProducer configs = Ok producer →
  Kafka.config producer = configs ∧ Kafka.records producer = [].
Proof.
  unfold Kafka.KafkaProducer. destruct (Kafka.producer_raises configs); [done|].
  by intros [= <-].
Qed.

(** X8.  [KeyedProducer.__init__] and the caller's [**kwargs].  When the
    caller repeats none of the keywords the constructor writes itself, the
    outcome is that of the [KafkaProducer] constructor on one configuration:
    its exception, or a producer with that configuration and no record.  The
    configuration has the location, the partitioner, 5 retries and the
    compression; its [max_request_size] is the caller's, or 4 MiB when the
    caller gives none; the selected security keywords override the caller's,
    and every other keyword of the caller is handed to the constructor as it
    is.  When the caller repeats a written keyword, the call raises the
    [TypeError] naming the callee and a repeated keyword. *)
Theorem keyed_producer_keywords (location : string) (enable_ssl : bool)
    (cert_path topic_done : string) (partitioner : Partitioner) (compression : Value)
    (enable_sasl : bool) (user password : string) (kwargs : Kwargs) :
  let security := security_kwargs enable_ssl cert_path enable_sasl user password in
  let result :=
    KeyedProducer.__init__ location enable_ssl cert_path topic_done partitioner
      compression enable_sasl user password kwargs in
  ((∀ key, key ∈ keyed_keywords → kwargs !! key = None) →
     ∃ configs,
       result
       = (producer ← Kafka.KafkaProducer configs;
          Ok (KeyedProducer.mk location topic_done partitioner compression producer))
       ∧ (∀ p, result = Ok p →
            KeyedProducer._topic_done p = topic_done
            ∧ KeyedProducer._partitioner p = partitioner
            ∧ Kafka.config (KeyedProducer._producer p) = configs
            ∧ Kafka.records (KeyedProducer._producer p) = [])
       ∧ (∀ e, Kafka.KafkaProducer configs = Raise e → result = Raise e)
       ∧ configs !! "bootstrap_servers" = Some (Str location)
       ∧ configs !! "partitioner" = Some (PartitionerObj partitioner)
       ∧ configs !! "retries" = Some (Int 5)
       ∧ configs !! "compression_type" = Some compression
       ∧ configs !! "max_request_size"
         = Some (default (Int DEFAULT_MAX_REQUEST_SIZE) (kwargs !! "max_request_size"))
       ∧ (∀ key v, security !! key = Some v → configs !! key = Some v)
       ∧ (∀ key, key ∉ keyed_keywords → key ≠ "max_request_size" →
            security !! key = None → configs !! key = kwargs !! key))
  ∧ (∀ key, key ∈ keyed_keywords → is_Some (kwargs !! key) →
       ∃ key', key' ∈ keyed_keywords ∧ is_Some (kwargs !! key')
               ∧ result
                 = Raise (TypeError (multiple_values Kafka.producer_callee key'))).
Proof.
  intros security result.
  assert (Hresult : result
    = (configs ← call_kwargs Kafka.producer_callee
         {[ "bootstrap_servers" := Str location;
            "partitioner" := PartitionerObj partitioner;
            "retries" := Int 5;
            "compression_type" := compression;
            "max_request_size"
              := default (Int DEFAULT_MAX_REQUEST_SIZE) (kwargs !! "max_request_size") ]}
         (security ∪ delete "max_request_size" kwargs);
       producer ← Kafka.KafkaProducer configs;
       Ok (KeyedProducer.mk location topic_done partitioner compression producer))).
  { unfold result, security, KeyedProducer.__init__, pop, security_kwargs, update.
    cbv beta iota zeta. destruct enable_ssl; [done|]. destruct enable_sasl; [done|].
    by rewrite (left_id_L ∅ (∪)). }
  rewrite Hresult. clear Hresult result.
  set (mrs := default (Int DEFAULT_MAX_REQUEST_SIZE) (kwargs !! "max_request_size")).
  set (explicit := ({[ "bootstrap_servers" := Str location;
                       "partitioner" := PartitionerObj partitioner;
                       "retries" := Int 5;
                       "compression_type" := compression;
                       "max_request_size" := mrs ]} : Kwargs)).
  assert (Hkeys : ∀ key, is_Some (explicit !! key)
            ↔ key ∈ ({[ "bootstrap_servers"; "partitioner"; "retries";
                        "compression_type"; "max_request_size" ]} : gset string))
    by apply keyed_explicit_keys.
  split.
  - intros Hfree.
    destruct (producer_configs_lookup Kafka.producer_callee explicit security
                (delete "max_request_size" kwargs))
      as (Hcall & Hexplicit & Hsecurity & Hother).
    { intros key Hkey. apply security_kwargs_None. by apply Hkeys. }
    { intros key Hkey. apply Hkeys in Hkey.
      destruct (decide (key = "max_request_size")) as [->|Hne];
        [apply lookup_delete_eq|].
      rewrite lookup_delete_ne by done. apply Hfree.
      unfold keyed_keywords. rewrite !elem_of_cons. set_solver. }
    rewrite Hcall. exists (explicit ∪ (security ∪ delete "max_request_size" kwargs)).
    split; [reflexivity|]. cbn [mbind Result_bind].
    split_and!; try done; try (by apply Hexplicit).
    + intros p Hp. apply bind_Ok in Hp as (producer & Hproducer & [= <-]).
      apply KafkaProducer_Ok in Hproducer as [Hcfg Hrec]. done.
    + intros e He. by rewrite He.
    + intros key Hkey Hne Hsec. rewrite Hother; [by apply lookup_delete_ne| |done].
      destruct (explicit !! key) eqn:He; [|done].
      assert (Hin : is_Some (explicit !! key)) by (by eexists).
      apply Hkeys in Hin. exfalso. apply Hkey.
      unfold keyed_keywords. rewrite !elem_of_cons. set_solver.
  - intros key Hkey Hkw.
    destruct (call_kwargs_Raise Kafka.producer_callee explicit
                (security ∪ delete "max_request_size" kwargs) key)
      as (key' & He' & Hk' & ->).
    + apply Hkeys. unfold keyed_keywords in Hkey. rewrite !elem_of_cons in Hkey.
      set_solver.
    + assert (Hne : key ≠ "max_request_size").
      { intros ->. unfold keyed_keywords in Hkey. rewrite !elem_of_cons in Hkey.
        set_solver. }
      destruct Hkw as [v Hv].
      destruct (security !! key) as [w|] eqn:Hs.
      * exists w. by apply lookup_union_Some_l.
      * exists v. rewrite lookup_union_r by done. by rewrite lookup_delete_ne.
    + exists key'. split_and!; [| |done].
      * assert (Hsec : security !! key' = None).
        { apply security_kwargs_None. by apply Hkeys. }
        rewrite lookup_union_r in Hk' by done.
        assert (Hne : key' ≠ "max_request_size").
        { intros ->. rewrite lookup_delete_eq in Hk'. by destruct Hk'. }
        apply Hkeys in He'. unfold keyed_keywords. rewrite !elem_of_cons.
        set_unfold. naive_solver.
      * assert (Hsec : security !! key' = None).
        { apply security_kwargs_None. by apply Hkeys. }
        rewrite lookup_union_r in Hk' by done.
        destruct (decide (key' = "max_request_size")) as [->|Hne].
        -- rewrite lookup_delete_eq in Hk'. by destruct Hk'.
        -- by rewrite lookup_delete_ne in Hk'.
Qed.

Lemma simple_explicit_keys (location : string)
    (compression max_request_size : Value) (key : string) :
  is_Some (({[ "bootstrap_servers" := Str location;
               "retries" := Int 5;
               "compression_type" := compression;
               "max_request_size" := max_request_size ]} : Kwargs) !! key)
  ↔ key ∈ ({[ "bootstrap_servers"; "retries"; "compression_type";
              "max_request_size" ]} : gset string).
Proof.
  rewrite <- elem_of_dom, !dom_insert_L, dom_singleton_L. set_solver.
Qed.

(** X9.  [SimpleProducer.__init__] (through [_create]) and the caller's
    [**kwargs].  When the caller repeats none of [bootstrap_servers],
    [retries] and [compression_type], the outcome is that of the
    [KafkaProducer] constructor on one configuration: its exception, or a
    producer with that configuration and no record.  In it
    [max_request_size] is the caller's or 4 MiB, the selected security
    keywords override the caller's, and every other keyword of the caller,
    a [partitioner] included, is handed to the constructor as it is.  When
    the caller repeats a written keyword, the call raises the [TypeError]
    naming the callee and a repeated keyword. *)
Theorem simple_producer_keywords (location : string) (enable_ssl : bool)
    (cert_path topic : string) (compression : Value)
    (enable_sasl : bool) (user password : string) (kwargs : Kwargs) :
  let security := security_kwargs enable_ssl cert_path enable_sasl user password in
  let result :=
    SimpleProducer.__init__ location enable_ssl cert_path topic
      compression enable_sasl user password kwargs in
  ((∀ key, key ∈ simple_keywords → kwargs !! key = None) →
     ∃ configs,
       result
       = (producer ← Kafka.KafkaProducer configs;
          Ok (SimpleProducer.mk location topic compression producer))
       ∧ (∀ p, result = Ok p →
            SimpleProducer._topic p = topic
            ∧ Kafka.config (SimpleProducer._producer p) = configs
            ∧ Kafka.records (SimpleProducer._producer p) = [])
       ∧ (∀ e, Kafka.KafkaProducer configs = Raise e → result = Raise e)
       ∧ configs !! "bootstrap_servers" = Some (Str location)
       ∧ configs !! "retries" = Some (Int 5)
       ∧ configs !! "compression_type" = Some compression
       ∧ configs !! "max_request_size"
         = Some (default (Int DEFAULT_MAX_REQUEST_SIZE) (kwargs !! "max_request_size"))
       ∧ (∀ key v, security !! key = Some v → configs !! key = Some v)
       ∧ (∀ key, key ∉ simple_keywords → key ≠ "max_request_size" →
            security !! key = None → configs !! key = kwargs !! key))
  ∧ (∀ key, key ∈ simple_keywords → is_Some (kwargs !! key) →
       ∃ key', key' ∈ simple_keywords ∧ is_Some (kwargs !! key')
               ∧ result
                 = Raise (TypeError (multiple_values Kafka.producer_callee key'))).
Proof.
  intros security result.
  assert (Hmrs : security !! "max_request_size" = None).
  { apply security_kwargs_None. set_unfold. naive_solver. }
  assert (Hresult : result
    = (configs ← call_kwargs Kafka.producer_callee
         {[ "bootstrap_servers" := Str location;
            "retries" := Int 5;
            "compression_type" := compression;
            "max_request_size"
              := default (Int DEFAULT_MAX_REQUEST_SIZE) (kwargs !! "max_request_size") ]}
         (security ∪ delete "max_request_size" kwargs);
       producer ← Kafka.KafkaProducer configs;
       Ok (SimpleProducer.mk location topic compression producer))).
  { assert (Hupd : (if enable_ssl then update kwargs (_prepare_kafka_ssl_kwargs cert_path)
                    else if enable_sasl
                         then update kwargs (_prepare_kafka_sasl_kwargs user password)
                         else kwargs) = security ∪ kwargs).
    { unfold security, security_kwargs, update.
      destruct enable_ssl; [done|]. destruct enable_sasl; [done|].
      by rewrite (left_id_L ∅ (∪)). }
    unfold result, SimpleProducer.__init__, SimpleProducer._create, pop.
    rewrite Hupd. cbv beta iota zeta.
    rewrite lookup_union_r by done.
    rewrite delete_union, (delete_id security) by done. done. }
  rewrite Hresult. clear Hresult result.
  set (mrs := default (Int DEFAULT_MAX_REQUEST_SIZE) (kwargs !! "max_request_size")).
  set (explicit := ({[ "bootstrap_servers" := Str location;
                       "retries" := Int 5;
                       "compression_type" := compression;
                       "max_request_size" := mrs ]} : Kwargs)).
  assert (Hkeys : ∀ key, is_Some (explicit !! key)
            ↔ key ∈ ({[ "bootstrap_servers"; "retries";
                        "compression_type"; "max_request_size" ]} : gset string))
    by apply simple_explicit_keys.
  assert (Hnosec : ∀ key, is_Some (explicit !! key) → security !! key = None).
  { intros key Hkey. apply security_kwargs_None. apply Hkeys in Hkey.
    set_unfold. naive_solver. }
  split.
  - intros Hfree.
    destruct (producer_configs_lookup Kafka.producer_callee explicit security
                (delete "max_request_size" kwargs))
      as (Hcall & Hexplicit & Hsecurity & Hother).
    { exact Hnosec. }
    { intros key Hkey. apply Hkeys in Hkey.
      destruct (decide (key = "max_request_size")) as [->|Hne];
        [apply lookup_delete_eq|].
      rewrite lookup_delete_ne by done. apply Hfree.
      unfold simple_keywords. rewrite !elem_of_cons. set_solver. }
    rewrite Hcall. exists (explicit ∪ (security ∪ delete "max_request_size" kwargs)).
    split; [reflexivity|]. cbn [mbind Result_bind].
    split_and!; try done; try (by apply Hexplicit).
    + intros p Hp. apply bind_Ok in Hp as (producer & Hproducer & [= <-]).
      apply KafkaProducer_Ok in Hproducer as [Hcfg Hrec]. done.
    + intros e He. by rewrite He.
    + intros key Hkey Hne Hsec. rewrite Hother; [by apply lookup_delete_ne| |done].
      destruct (explicit !! key) eqn:He; [|done].
      assert (Hin : is_Some (explicit !! key)) by (by eexists).
      apply Hkeys in Hin. exfalso. apply Hkey.
      unfold simple_keywords. rewrite !elem_of_cons. set_solver.
  - intros key Hkey Hkw.
    destruct (call_kwargs_Raise Kafka.producer_callee explicit
                (security ∪ delete "max_request_size" kwargs) key)
      as (key' & He' & Hk' & ->).
    + apply Hkeys. unfold simple_keywords in Hkey. rewrite !elem_of_cons in Hkey.
      set_solver.
    + assert (Hne : key ≠ "max_request_size").
      { intros ->. unfold simple_keywords in Hkey. rewrite !elem_of_cons in Hkey.
        set_solver. }
      destruct Hkw as [v Hv].
      destruct (security !! key) as [w|] eqn:Hs.
      * exists w. by apply lookup_union_Some_l.
      * exists v. rewrite lookup_union_r by done. by rewrite lookup_delete_ne.
    + exists key'. rewrite lookup_union_r in Hk' by (by apply Hnosec).
      split_and!; [| |done].
      * assert (Hne : key' ≠ "max_request_size").
        { intros ->. rewrite lookup_delete_eq in Hk'. by destruct Hk'. }
        apply Hkeys in He'. unfold simple_keywords. rewrite !elem_of_cons.
        set_unfold. naive_solver.
      * destruct (decide (key' = "max_request_size")) as [->|Hne].
        -- rewrite lookup_delete_eq in Hk'. by destruct Hk'.
        -- by rewrite lookup_delete_ne in Hk'.
Qed.
End ProducerConstruction.

(** On a reachable cluster a caller's [max_request_size] reaches the
    client; a caller's [retries] clashes with the constructor's own; and on
    an unreachable cluster the constructor's exception is the outcome. *)
Lemma keyed_producer_keywords_witness :
  (∃ p, @KeyedProducer.__init__ Sim.producer_api "localhost:9092" false ""
          "frontier-done" (FingerprintPartitioner 1) None_ false "" ""
          {[ "max_request_size" := Int 1000 ]} = Ok p
        ∧ Kafka.config (KeyedProducer._producer p) !! "max_request_size"
          = Some (Int 1000))
  ∧ @KeyedProducer.__init__ Sim.producer_api "localhost:9092" false ""
      "frontier-done" (FingerprintPartitioner 1) None_ false "" ""
      {[ "retries" := Int 3 ]}
    = Raise (TypeError
        "kafka.producer.kafka.KafkaProducer() got multiple values for keyword argument 'retries'")
  ∧ @KeyedProducer.__init__ Unreachable.producer_api "localhost:9092" false ""
      "frontier-done" (FingerprintPartitioner 1) None_ false "" "" ∅
    = Raise (KafkaError "NoBrokersAvailable").
Proof.
  split; [|split].
  - destruct (proj1 (@keyed_producer_keywords Sim.producer_api "localhost:9092" false ""
                       "frontier-done" (FingerprintPartitioner 1) None_ false "" ""
                       {[ "max_request_size" := Int 1000 ]}))
      as (configs & Hresult & Hp & _ & _ & _ & _ & _ & Hmrs & _).
    + intros key Hkey. unfold keyed_keywords in Hkey.
      repeat (apply elem_of_cons in Hkey as [->|Hkey]; [reflexivity|]).
      by apply elem_of_nil in Hkey.
    + exists (KeyedProducer.mk "localhost:9092" "frontier-done"
                (FingerprintPartitioner 1) None_ (Kafka.new_producer configs)).
      split; [exact Hresult|exact Hmrs].
  - destruct (proj2 (@keyed_producer_keywords Sim.producer_api "localhost:9092" false ""
                       "frontier-done" (FingerprintPartitioner 1) None_ false "" ""
                       {[ "retries" := Int 3 ]}) "retries")
      as (key' & _ & Hkey' & Hresult).
    + unfold keyed_keywords. apply list_elem_of_further, list_elem_of_further,
        list_elem_of_here.
    + eexists. reflexivity.
    + destruct Hkey' as [v Hv]. apply lookup_singleton_Some in Hv as [<- _].
      exact Hresult.
  - destruct (proj1 (@keyed_producer_keywords Unreachable.producer_api "localhost:9092"
                       false "" "frontier-done" (FingerprintPartitioner 1) None_
                       false "" "" ∅))
      as (configs & _ & _ & Hraise & _).
    + intros key _. reflexivity.
    + apply Hraise. reflexivity.
Defined.

(** The unkeyed producer lets a caller's [partitioner] through and rejects a
    caller's [bootstrap_servers]. *)
Lemma simple_producer_keywords_witness :
  (∃ p, @SimpleProducer.__init__ Sim.producer_api "localhost:9092" false ""
          "frontier-score" None_ false "" ""
          {[ "partitioner" := PartitionerObj (FingerprintPartitioner 2) ]}
        = Ok p
        ∧ Kafka.config (SimpleProducer._producer p) !! "partitioner"
          = Some (PartitionerObj (FingerprintPartitioner 2))
        ∧ Kafka.config (SimpleProducer._producer p) !! "max_request_size"
          = Some (Int DEFAULT_MAX_REQUEST_SIZE))
  ∧ @SimpleProducer.__init__ Sim.producer_api "localhost:9092" false ""
      "frontier-score" None_ false "" ""
      {[ "bootstrap_servers" := Str "elsewhere:9092" ]}
    = Raise (TypeError
        "kafka.producer.kafka.KafkaProducer() got multiple values for keyword argument 'bootstrap_servers'").
Proof.
  split.
  - destruct (proj1 (@simple_producer_keywords Sim.producer_api "localhost:9092" false
                       "" "frontier-score" None_ false "" ""
                       {[ "partitioner" := PartitionerObj (FingerprintPartitioner 2) ]}))
      as (configs & Hresult & _ & _ & _ & _ & _ & Hmrs & _ & Hother).
    + intros key Hkey. unfold simple_keywords in Hkey.
      repeat (apply elem_of_cons in Hkey as [->|Hkey]; [reflexivity|]).
      by apply elem_of_nil in Hkey.
    + exists (SimpleProducer.mk "localhost:9092" "frontier-score" None_
                (Kafka.new_producer configs)).
      split; [exact Hresult|]. split; [|exact Hmrs].
      cbn [SimpleProducer._producer Kafka.config Kafka.new_producer].
      rewrite Hother; [reflexivity| |discriminate|reflexivity].
      unfold simple_keywords. intros Hin.
      repeat (apply elem_of_cons in Hin as [Hin|Hin]; [discriminate Hin|]).
      by apply elem_of_nil in Hin.
  - destruct (proj2 (@simple_producer_keywords Sim.producer_api "localhost:9092" false
                       "" "frontier-score" None_ false "" ""
                       {[ "bootstrap_servers" := Str "elsewhere:9092" ]})
                "bootstrap_servers")
      as (key' & _ & Hkey' & Hresult).
    + unfold simple_keywords. apply list_elem_of_here.
    + eexists. reflexivity.
    + destruct Hkey' as [v Hv]. apply lookup_singleton_Some in Hv as [<- _].
      exact Hresult.
Defined.

(** ** The producers the facades hand out *)

Section FacadeProducers.
Context `{!Kafka.ProducerApi}.

Lemma keyed_init_facade (location : string) (enable_ssl : bool)
    (cert_path topic : string) (partitioner : Partitioner) (compression : Value)
    (enable_sasl : bool) (user password : string) (max_block_ms : Value) :
  ∃ configs,
    KeyedProducer.__init__ location enable_ssl cert_path topic partitioner
      compression enable_sasl user password (producer_kwargs max_block_ms)
    = (producer ← Kafka.KafkaProducer configs;
       Ok (KeyedProducer.mk location topic partitioner compression producer))
    ∧ configs !! "partitioner" = Some (PartitionerObj partitioner)
    ∧ facade_config configs max_block_ms.
Proof.
  unfold KeyedProducer.__init__, pop, facade_config. cbv beta iota zeta.
  destruct enable_ssl; [|destruct enable_sasl];
    (rewrite call_kwargs_Ok by (vm_compute; reflexivity);
     eexists; split; [reflexivity|];
     split_and!; vm_compute; reflexivity).
Qed.

Lemma simple_init_facade (location : string) (enable_ssl : bool)
    (cert_path topic : string) (compression : Value)
    (enable_sasl : bool) (user password : string) (max_block_ms : Value) :
  ∃ configs,
    SimpleProducer.__init__ location enable_ssl cert_path topic
      compression enable_sasl user password (producer_kwargs max_block_ms)
    = (producer ← Kafka.KafkaProducer configs;
       Ok (SimpleProducer.mk location topic compression producer))
    ∧ configs !! "partitioner" = None
    ∧ facade_config configs max_block_ms.
Proof.
  unfold SimpleProducer.__init__, SimpleProducer._create, pop, facade_config.
  cbv beta iota zeta.
  destruct enable_ssl; [|destruct enable_sasl];
    (match goal with
     | |- context [default _ (?m !! "max_request_size")] =>
         replace (m !! "max_request_size") with (@None Value)
           by (vm_compute; reflexivity)
     end;
     cbn [default];
     rewrite call_kwargs_Ok by (vm_compute; reflexivity);
     eexists; split; [reflexivity|];
     split_and!; vm_compute; reflexivity).
Qed.

(** X10.  The producers the facades hand out.  The outcome of [producer] is
    that of the [KafkaProducer] constructor on the facade's configuration:
    its exception, or a producer bound to the facade's topic.  The spider
    log always partitions by fingerprint over its configured partition
    count; the spider feed partitions by host name (CRC32) when
    [hostname_partitioning] is set and by fingerprint otherwise; the scoring
    log (and with it the stats log) produces unkeyed, with no partitioner in
    the configuration.  Each configuration has a batch size of 1 MiB,
    130 MiB of buffer memory, the configured [max_block_ms], 5 retries and,
    no facade passing one, the default [max_request_size] of 4 MiB. *)
Theorem facade_producers :
  (∀ self : SpiderLogStream.t,
     ∃ configs,
       SpiderLogStream.producer self
       = (producer ← Kafka.KafkaProducer configs;
          Ok (KeyedProducer.mk (SpiderLogStream._location self)
                (SpiderLogStream._topic self)
                (FingerprintPartitioner (SpiderLogStream._partitions self))
                (SpiderLogStream._codec self) producer))
       ∧ configs !! "partitioner"
         = Some (PartitionerObj
                   (FingerprintPartitioner (SpiderLogStream._partitions self)))
       ∧ facade_config configs (SpiderLogStream._kafka_max_block_ms self))
  ∧ (∀ (F : Type) (self : SpiderFeedStream.t F),
       let partitioner :=
         if SpiderFeedStream._hostname_partitioning self
         then Crc32NamePartitioner (SpiderFeedStream._partitions self)
         else FingerprintPartitioner (SpiderFeedStream._partitions self) in
       ∃ configs,
         SpiderFeedStream.producer self
         = (producer ← Kafka.KafkaProducer configs;
            Ok (KeyedProducer.mk (SpiderFeedStream._location self)
                  (SpiderFeedStream._topic self) partitioner
                  (SpiderFeedStream._codec self) producer))
         ∧ configs !! "partitioner" = Some (PartitionerObj partitioner)
         ∧ facade_config configs (SpiderFeedStream._kafka_max_block_ms self))
  ∧ (∀ self : ScoringLogStream.t,
       ∃ configs,
         ScoringLogStream.producer self
         = (producer ← Kafka.KafkaProducer configs;
            Ok (SimpleProducer.mk (ScoringLogStream._location self)
                  (ScoringLogStream._topic self) (ScoringLogStream._codec self)
                  producer))
         ∧ StatsLogStream.producer self = ScoringLogStream.producer self
         ∧ configs !! "partitioner" = None
         ∧ facade_config configs (ScoringLogStream._kafka_max_block_ms self)).
Proof.
  split; [|split].
  - intros self. unfold SpiderLogStream.producer.
    destruct (keyed_init_facade (SpiderLogStream._location self)
                (SpiderLogStream._enable_ssl self) (SpiderLogStream._cert_path self)
                (SpiderLogStream._topic self)
                (FingerprintPartitioner (SpiderLogStream._partitions self))
                (SpiderLogStream._codec self) (SpiderLogStream._enable_sasl self)
                (SpiderLogStream._sasl_username self)
                (SpiderLogStream._sasl_password self)
                (SpiderLogStream._kafka_max_block_ms self))
      as (configs & Hresult & Hpart & Hcfg).
    exists configs. by rewrite Hresult.
  - intros F self partitioner. unfold SpiderFeedStream.producer.
    cbv zeta. fold partitioner.
    destruct (keyed_init_facade (SpiderFeedStream._location self)
                (SpiderFeedStream._enable_ssl self) (SpiderFeedStream._cert_path self)
                (SpiderFeedStream._topic self) partitioner
                (SpiderFeedStream._codec self) (SpiderFeedStream._enable_sasl self)
                (SpiderFeedStream._sasl_username self)
                (SpiderFeedStream._sasl_password self)
                (SpiderFeedStream._kafka_max_block_ms self))
      as (configs & Hresult & Hpart & Hcfg).
    exists configs. by rewrite Hresult.
  - intros self. unfold ScoringLogStream.producer.
    destruct (simple_init_facade (ScoringLogStream._location self)
                (ScoringLogStream._enable_ssl self) (ScoringLogStream._cert_path self)
                (ScoringLogStream._topic self) (ScoringLogStream._codec self)
                (ScoringLogStream._enable_sasl self)
                (ScoringLogStream._sasl_username self)
                (ScoringLogStream._sasl_password self)
                (ScoringLogStream._kafka_max_block_ms self))
      as (configs & Hresult & Hnone & Hcfg).
    exists configs. by rewrite Hresult.
Qed.

End FacadeProducers.

(** ** Several [send] calls on a keyed producer *)

Section SendCalls.

Lemma keyed_send_topic (self : KeyedProducer.t) (key : Value) (messages : list string) :
  KeyedProducer._topic_done (KeyedProducer.send self key messages)
  = KeyedProducer._topic_done self.
Proof. done. Qed.

Lemma send_calls_records (self : KeyedProducer.t) (calls : list (Value * list string)) :
  KeyedProducer._topic_done (send_calls self calls) = KeyedProducer._topic_done self
  ∧ Kafka.records (KeyedProducer._producer (send_calls self calls))
    = (Kafka.records (KeyedProducer._producer self)
       ++ records_of_calls (KeyedProducer._topic_done self) calls)%list.
Proof.
  revert self. induction calls as [|[key messages] calls IH]; intros self.
  - split; [done|]. unfold records_of_calls. simpl. by rewrite app_nil_r.
  - unfold send_calls in *. simpl.
    destruct (IH (KeyedProducer.send self key messages)) as [-> ->].
    split; [done|]. rewrite keyed_send_topic.
    unfold KeyedProducer.send at 1. simpl. rewrite send_loop_records.
    unfold records_of_calls. simpl. by rewrite <- app_assoc.
Qed.

Lemma filter_key_records (topic : string) (key key' : Value) (messages : list string) :
  filter (fun r => Kafka.pr_key r = Some key)
         (Kafka.mkProducerRecord topic (Some key') <$> messages)
  = if decide (key' = key)
    then Kafka.mkProducerRecord topic (Some key) <$> messages
    else [].
Proof.
  destruct (decide (key' = key)) as [->|Hne];
    (induction messages as [|m messages IH]; [done|]);
    rewrite fmap_cons, filter_cons; cbn [Kafka.pr_key].
  - rewrite decide_True by done. by rewrite IH.
  - rewrite decide_False; [exact IH|]. by intros [= ->].
Qed.

(** X11.  Per-key order over several calls: after any sequence of
    [send(key, *messages)] calls on a keyed producer, the records it accepted
    are those of the calls, call after call; so the records carrying one key
    are exactly the messages of the calls made with that key, in call order
    and, within a call, in argument order.  A call without messages changes
    nothing. *)
Theorem keyed_calls_keep_key_order (self : KeyedProducer.t)
    (calls : list (Value * list string)) :
  let topic := KeyedProducer._topic_done self in
  Kafka.records (KeyedProducer._producer (send_calls self calls))
  = (Kafka.records (KeyedProducer._producer self) ++ records_of_calls topic calls)%list
  ∧ (∀ key : Value,
       filter (fun r => Kafka.pr_key r = Some key) (records_of_calls topic calls)
       = Kafka.mkProducerRecord topic (Some key)
         <$> (call ← filter (fun call => call.1 = key) calls; call.2))
  ∧ (∀ key : Value, KeyedProducer.send self key [] = self).
Proof.
  intros topic. split; [apply send_calls_records|]. split.
  - intros key. unfold records_of_calls.
    induction calls as [|[key' messages] calls IH]; [done|].
    rewrite bind_cons, filter_app, IH, filter_key_records, filter_cons. simpl.
    destruct (decide (key' = key)) as [->|Hne]; [|done].
    by rewrite bind_cons, fmap_app.
  - intros key. by destruct self.
Qed.

End SendCalls.

(** ** More on admission control *)

Section Admission.
Context {F : Type} `{!Kafka.OffsetsFetcherApi F}.

Lemma filter_sublist_impl {A : Type} (P Q : A → Prop)
    `{!∀ x, Decision (P x)} `{!∀ x, Decision (Q x)} (l : list A) :
  (∀ x, P x → Q x) → filter P l `sublist_of` filter Q l.
Proof.
  intros HPQ. induction l as [|x l IH]; [done|].
  rewrite !filter_cons. destruct (decide (P x)) as [HP|HP].
  - rewrite decide_True by auto. by apply sublist_skip.
  - destruct (decide (Q x)); [by apply sublist_cons|done].
Qed.

(** X12.  Raising the limit never closes a partition: on the same lag
    snapshot, every partition available under a limit is available under
    any larger limit, so there are at least as many; and there are never
    more than the snapshot has entries. *)
Theorem available_partitions_monotone (self self' : SpiderFeedStream.t F) :
  Kafka.get (SpiderFeedStream._offset_fetcher self)
  = Kafka.get (SpiderFeedStream._offset_fetcher self') →
  (SpiderFeedStream._max_next_requests self
   ≤ SpiderFeedStream._max_next_requests self')%Z →
  (∀ p : Z, p ∈ SpiderFeedStream.available_partitions self →
            p ∈ SpiderFeedStream.available_partitions self')
  ∧ (length (SpiderFeedStream.available_partitions self)
     ≤ length (SpiderFeedStream.available_partitions self'))%nat
  ∧ (length (SpiderFeedStream.available_partitions self')
     ≤ size (Kafka.get (SpiderFeedStream._offset_fetcher self')))%nat.
Proof.
  intros Hlags Hlimit. rewrite !available_partitions_filter, Hlags.
  assert (Hsub : (filter (λ item : Z * Z,
                            (item.2 < SpiderFeedStream._max_next_requests self)%Z)
                    (map_to_list (Kafka.get (SpiderFeedStream._offset_fetcher self')))).*1
                 `sublist_of`
                 (filter (λ item : Z * Z,
                            (item.2 < SpiderFeedStream._max_next_requests self')%Z)
                    (map_to_list (Kafka.get (SpiderFeedStream._offset_fetcher self')))).*1).
  { apply fmap_sublist, filter_sublist_impl. intros [p lag]. simpl. lia. }
  split; [|split].
  - intros p Hp. by eapply elem_of_sublist.
  - by apply sublist_length.
  - rewrite length_fmap. etrans; [apply length_filter|].
    by rewrite length_map_to_list.
Qed.

Lemma filter_all_or_none {A : Type} (P : A → Prop) `{!∀ x, Decision (P x)}
    (l : list A) :
  ((∀ x, x ∈ l → P x) → filter P l = l)
  ∧ ((∀ x, x ∈ l → ¬ P x) → filter P l = []).
Proof.
  induction l as [|x l [IHall IHnone]]; [done|]. rewrite filter_cons. split.
  - intros Hall. rewrite decide_True by (apply Hall, list_elem_of_here).
    f_equal. apply IHall. intros y Hy. by apply Hall, list_elem_of_further.
  - intros Hnone. rewrite decide_False by (apply Hnone, list_elem_of_here).
    apply IHnone. intros y Hy. by apply Hnone, list_elem_of_further.
Qed.

(** X13.  The two ends of the limit: when every lag of the snapshot is at or
    above the limit (in particular when the snapshot is empty) no partition
    is available; when every lag is below it, every partition of the snapshot
    is. *)
Theorem available_partitions_none_or_all (self : SpiderFeedStream.t F) :
  let lags := Kafka.get (SpiderFeedStream._offset_fetcher self) in
  let limit := SpiderFeedStream._max_next_requests self in
  ((∀ p lag, lags !! p = Some lag → (limit ≤ lag)%Z) →
     SpiderFeedStream.available_partitions self = [])
  ∧ ((∀ p lag, lags !! p = Some lag → (lag < limit)%Z) →
     SpiderFeedStream.available_partitions self = (map_to_list lags).*1
     ∧ ∀ p, p ∈ SpiderFeedStream.available_partitions self ↔ p ∈ dom lags)
  ∧ (lags = ∅ → SpiderFeedStream.available_partitions self = []).
Proof.
  intros lags limit. rewrite available_partitions_filter. fold lags limit.
  assert (Hnone : (∀ p lag, lags !! p = Some lag → (limit ≤ lag)%Z) →
                  (filter (λ item : Z * Z, item.2 < limit) (map_to_list lags)).*1 = []).
  { intros Hall. rewrite (proj2 (filter_all_or_none _ _)); [done|].
    intros [p lag] Hin%elem_of_map_to_list. simpl.
    specialize (Hall p lag Hin). lia. }
  split; [exact Hnone|]. split.
  - intros Hall. rewrite (proj1 (filter_all_or_none _ _)).
    + split; [done|]. intros p. rewrite elem_of_dom, list_elem_of_fmap. split.
      * intros [[q lag] [-> Hin%elem_of_map_to_list]]. by exists lag.
      * intros [lag Hp]. exists (p, lag). split; [done|].
        by apply elem_of_map_to_list.
    + intros [p lag] Hin%elem_of_map_to_list. simpl. by apply (Hall p).
  - intros Hempty. apply Hnone. intros p lag Hp.
    rewrite Hempty, lookup_empty in Hp. done.
Qed.

End Admission.

(** Lags 3 and 10 on partitions 1 and 2: a limit of 5 opens partition 1, a
    limit of 20 opens both. *)
Lemma available_partitions_monotone_witness :
  1 ∈ @SpiderFeedStream.available_partitions _ (Sim.fetcher_api {[ 1 := 3; 2 := 10 ]})
        (feed_with_limit {[ 1 := 3; 2 := 10 ]} 20).
Proof.
  apply (proj1 (@available_partitions_monotone _
                  (Sim.fetcher_api {[ 1 := 3; 2 := 10 ]})
                  (feed_with_limit {[ 1 := 3; 2 := 10 ]} 5)
                  (feed_with_limit {[ 1 := 3; 2 := 10 ]} 20)
                  eq_refl ltac:(simpl; lia)) 1).
  vm_compute. apply list_elem_of_here.
Defined.

(** With a limit of 5, lags of 10 and 7 close every partition. *)
Lemma available_partitions_none_or_all_witness :
  @SpiderFeedStream.available_partitions _ (Sim.fetcher_api {[ 1 := 7; 2 := 10 ]})
    (feed_with_limit {[ 1 := 7; 2 := 10 ]} 5) = [].
Proof.
  apply (proj1 (@available_partitions_none_or_all _
                  (Sim.fetcher_api {[ 1 := 7; 2 := 10 ]})
                  (feed_with_limit {[ 1 := 7; 2 := 10 ]} 5))).
  intros p lag Hp. simpl in Hp.
  apply lookup_insert_Some in Hp as [[_ <-]|[_ Hp]]; [simpl; lia|].
  apply lookup_singleton_Some in Hp as [_ <-]. simpl. lia.
Defined.

(** ** The lag fetcher of the spider feed *)

Section FeedFetcher.
Context {F : Type} `{!Kafka.OffsetsFetcherApi F}.

(** X14.  The lag fetcher of the spider feed watches what the feed's
    consumers read: it is created for the feed's topic and the feed's
    consumer group at the bus's location, with the same choice of security
    keywords as the consumers (SSL before SASL, none when neither is
    enabled), and the limit of the facade is the bus's [max_next_requests]. *)
Theorem spider_feed_fetcher_scope (messagebus : MessageBus) :
  let self := spider_feed messagebus in
  let security :=
    security_kwargs (enable_ssl messagebus) (cert_path messagebus)
      (enable_sasl messagebus) (sasl_username messagebus) (sasl_password messagebus) in
  ∃ kwargs : Kwargs,
    SpiderFeedStream._offset_fetcher self = Kafka.OffsetsFetcherAsync kwargs
    ∧ kwargs !! "bootstrap_servers" = Some (Str (SpiderFeedStream._location self))
    ∧ kwargs !! "topic" = Some (Str (SpiderFeedStream._topic self))
    ∧ kwargs !! "group_id" = Some (Str (SpiderFeedStream._general_group self))
    ∧ (∀ key v, security !! key = Some v → kwargs !! key = Some v)
    ∧ (∀ key, security !! key = None →
         key ≠ "bootstrap_servers" → key ≠ "topic" → key ≠ "group_id" →
         kwargs !! key = None)
    ∧ SpiderFeedStream._topic self = topic_todo messagebus
    ∧ SpiderFeedStream._general_group self = spider_feed_group messagebus
    ∧ SpiderFeedStream._max_next_requests self = max_next_requests messagebus.
Proof.
  intros self security.
  set (base := ({[ "bootstrap_servers" := Str (kafka_location messagebus);
                   "topic" := Str (topic_todo messagebus);
                   "group_id" := Str (spider_feed_group messagebus) ]} : Kwargs)).
  assert (Hbase : ∀ key, security !! key = None ∨ base !! key = None).
  { intros key. destruct (security !! key) as [v|] eqn:Hs; [right|by left].
    assert (Hin := security_kwargs_keys _ _ _ _ _ key ltac:(by eexists)).
    apply not_elem_of_dom. unfold base.
    rewrite !dom_insert_L, dom_singleton_L. set_unfold. naive_solver. }
  exists (security ∪ base). split.
  { unfold self, spider_feed, SpiderFeedStream.__init__, security, security_kwargs,
      update. simpl. fold base.
    destruct (enable_ssl messagebus); [done|].
    destruct (enable_sasl messagebus); [done|]. by rewrite (left_id_L ∅ (∪)). }
  assert (Hlookup : ∀ key v, base !! key = Some v → (security ∪ base) !! key = Some v).
  { intros key v Hv. destruct (Hbase key) as [Hs|Hb]; [|congruence].
    by rewrite lookup_union_r. }
  split_and!; try done; try (apply Hlookup; done).
  - intros key v Hs. by apply lookup_union_Some_l.
  - intros key Hs H1 H2 H3. rewrite lookup_union_r by done. unfold base.
    rewrite !lookup_insert_ne by done. by apply lookup_singleton_ne.
Qed.

End FeedFetcher.

(** ** From the message bus to a consumer *)

Section BusConsumers.
Context {K : Type} `{!Kafka.ConsumerApi K} {F : Type} `{!Kafka.OffsetsFetcherApi F}.

Lemma init_binding (location : string) (enable_ssl : bool)
    (cert_path topic group : string) (partition_id : option Z) (enable_sasl : bool)
    (sasl_username sasl_password : string) (c : Consumer.t K) :
  Consumer.__init__ location enable_ssl cert_path topic group partition_id
    enable_sasl sasl_username sasl_password = Ok c →
  Consumer._topic c = topic ∧ Consumer._group c = group
  ∧ ∀ tp, tp ∈ Consumer._partitions c → Kafka.topic tp = topic.
Proof.
  intros Hc. apply init_partitions in Hc as (Hgroup & Htopic & Hparts).
  split; [done|]. split; [done|]. destruct partition_id as [pid|]; [|done].
  rewrite Hparts. intros tp Htp. apply list_elem_of_singleton in Htp. by subst tp.
Qed.

(** X15.  Every consumer a facade of the bus returns is bound to that
    facade's topic and group, and every partition it records is a partition
    of that topic: the spider log reads the spider-log topic under the
    strategy-worker or the DB-writer group, the spider feed reads the
    spider-feed topic under the feed group, the scoring log its topic under
    the scoring DB-writer group, and the stats log the stats topic under the
    stats-reader group. *)
Theorem bus_consumers_topic_and_group (messagebus : MessageBus) :
  let bound (topic : string) (groups : list string) (c : Consumer.t K) : Prop :=
    Consumer._topic c = topic ∧ Consumer._group c ∈ groups
    ∧ ∀ tp, tp ∈ Consumer._partitions c → Kafka.topic tp = topic in
  (∀ partition_id type c,
     SpiderLogStream.consumer (spider_log messagebus) partition_id type = Ok c →
     bound (topic_done messagebus)
       [spiderlog_sw_group messagebus; spiderlog_dbw_group messagebus] c)
  ∧ (∀ partition_id c,
       SpiderFeedStream.consumer (spider_feed messagebus) partition_id = Ok c →
       bound (topic_todo messagebus) [spider_feed_group messagebus] c)
  ∧ (∀ c, ScoringLogStream.consumer (scoring_log messagebus) = Ok c →
          bound (topic_scoring messagebus) [scoringlog_dbw_group messagebus] c)
  ∧ (∀ c, StatsLogStream.consumer (stats_log messagebus) = Ok c →
          bound (topic_stats messagebus) [statslog_reader_group messagebus] c).
Proof.
  intros bound. split_and!.
  - intros partition_id type c Hc. unfold SpiderLogStream.consumer in Hc.
    simpl in Hc. apply bind_Ok in Hc as (c0 & Hinit & Hassert).
    apply assert_partitions_Ok in Hassert as [-> _].
    apply init_binding in Hinit as (Htopic & Hgroup & Hparts).
    split; [done|]. split; [|done]. rewrite Hgroup.
    unfold SpiderLogStream.consumer_group.
    destruct (Py.eq type (Bytes "sw"));
      [apply list_elem_of_here|apply list_elem_of_further, list_elem_of_here].
  - intros partition_id c Hc. unfold SpiderFeedStream.consumer in Hc.
    apply bind_Ok in Hc as (c0 & Hinit & Hassert).
    apply assert_partitions_Ok in Hassert as [-> _].
    apply init_binding in Hinit as (Htopic & Hgroup & Hparts).
    split; [done|]. split; [|done]. rewrite Hgroup. apply list_elem_of_here.
  - intros c Hc. unfold ScoringLogStream.consumer in Hc.
    apply init_binding in Hc as (Htopic & Hgroup & Hparts).
    split; [done|]. split; [|done]. rewrite Hgroup. apply list_elem_of_here.
  - intros c Hc. unfold StatsLogStream.consumer, ScoringLogStream.consumer in Hc.
    apply init_binding in Hc as (Htopic & Hgroup & Hparts).
    split; [done|]. split; [|done]. rewrite Hgroup. apply list_elem_of_here.
Qed.

End BusConsumers.

(** The stats log of the scenario: its consumer reads [frontier-stats] under
    [stats-reader-log]. *)
Lemma bus_consumers_topic_and_group_witness :
  ∃ c, @StatsLogStream.consumer _ (Sim.consumer_api Scenario.cluster)
         (stats_log Scenario.bus) = Ok c
       ∧ Consumer._topic c = "frontier-stats"
       ∧ Consumer._group c ∈ ["stats-reader-log"].
Proof.
  destruct (@StatsLogStream.consumer _ (Sim.consumer_api Scenario.cluster)
              (stats_log Scenario.bus)) as [c|e] eqn:Hc;
    [|vm_compute in Hc; discriminate Hc].
  exists c. split; [reflexivity|].
  destruct (proj2 (proj2 (proj2 (@bus_consumers_topic_and_group _
              (Sim.consumer_api Scenario.cluster) _ (Sim.fetcher_api ∅)
              Scenario.bus))) c Hc) as (Htopic & Hgroup & _).
  split; [exact Htopic|exact Hgroup].
Defined.
